(** * BankingSystem: the account ledger of [banking_system.py]

    The program keeps account records in [accounts.txt], one comma-separated
    line per account, appends one row per balance change to
    [transactions.txt], and holds at most one logged-in [Account] object in
    memory.  This development embeds the program as functions over an
    explicit world (the two files, the logged-in object, the messages
    printed) and proves properties of the ledger operations.

    Reading conventions of the embedding.

    - A line of [accounts.txt] is represented by the list of fields that
      [line.strip().split(",")] makes of it; a line of white space only is
      the one-field list [[""]].  Fields supplied by the user (name, account
      type) are single fields: no comma, no line break, no white space at
      the end of the line.
    - Balances and amounts are Python floats in the program; here they are
      exact integers ([Z], the amount counted in the smallest unit).
      Rounding, infinities and NaN are outside the model.
    - The Python built-ins that convert between text and numbers, and
      SHA-256, are parameters of the development ([Builtins]); the laws
      they are used with are stated as hypotheses where needed.
    - Python objects are mutable.  A method that mutates an object returns
      the mutated object, and the caller stores it wherever the program
      holds a reference to it.
    - The answers to the prompts are arguments of the operations, already
      converted: an amount is the value of [float(input(...))], the
      confirmation of a closure is the outcome of
      [confirm.lower() == "yes"].  The time stamp of a transaction row is
      left out.
    - An uncaught Python exception ends the program; the world it leaves
      behind is kept ([Raise] carries no world, the monad does). *)

From Stdlib Require Import ZArith List String Ascii Bool Lia Sorted.
From Stdlib Require Import DecimalString DecimalZ.
Import ListNotations.
Local Open Scope string_scope.
Local Open Scope list_scope.
Local Open Scope Z_scope.

(** ** Data *)

(** [class Account]: the five attributes set by [__init__]. *)
Record Account := mkAccount {
  account_no : string;
  name : string;
  password : string;      (* hashed password *)
  balance : Z;
  acc_type : string
}.

Definition set_balance (acc : Account) (b : Z) : Account :=
  mkAccount (account_no acc) (name acc) (password acc) b (acc_type acc).

Definition set_password (acc : Account) (p : string) : Account :=
  mkAccount (account_no acc) (name acc) p (balance acc) (acc_type acc).

(** A line of [accounts.txt], as the fields of [line.strip().split(",")]. *)
Definition line := list string.

(** A row of [transactions.txt] as [csv.writer] receives it, the time stamp
    left out. *)
Record txn := mkTxn {
  txn_account : string;
  txn_type : string;
  txn_amount : Z
}.

(** What the operations print (menu banners and prompts are not recorded). *)
Inductive message :=
| AccountCreated (account_no : Z)
| Welcome (name : string)
| InvalidLogin                  (* Invalid account number or password. *)
| InsufficientBalance           (* Insufficient balance. *)
| InsufficientBalanceTransfer   (* Insufficient balance for transfer. *)
| DepositSuccessful
| WithdrawalSuccessful
| CurrentBalance (b : Z)
| TransferSuccessful
| TargetNotFound                (* Target account not found. *)
| IncorrectOldPassword
| PasswordChanged
| AccountClosed
| LoggedOut
| ThankYou
| InvalidChoice.

(** The two files, [self.logged_in_account] and the terminal. *)
Record World := mkWorld {
  ACCOUNTS_FILE : list line;
  TRANSACTIONS_FILE : list txn;
  logged_in_account : option Account;
  printed : list message
}.

(** ** Python built-ins taken as parameters *)

Class Builtins := {
  (** [hashlib.sha256(s.encode()).hexdigest()] *)
  sha256_hexdigest : string -> string;
  (** [float(s)]; [None] is [ValueError] *)
  py_float : string -> option Z;
  (** the text an f-string gives a float *)
  str_float : Z -> string;
  (** [int(s)]; [None] is [ValueError] *)
  py_int : string -> option Z;
  (** the text an f-string gives an int *)
  str_int : Z -> string
}.

(** [float(f"{x}") == x] *)
Definition float_roundtrip `{Builtins} : Prop :=
  forall x, py_float (str_float x) = Some x.

(** [int(f"{n}") == n] *)
Definition int_roundtrip `{Builtins} : Prop :=
  forall n, py_int (str_int n) = Some n.

(** the digest taken as injective *)
Definition digest_injective `{Builtins} : Prop :=
  forall p q, sha256_hexdigest p = sha256_hexdigest q -> p = q.

(** ** Exceptions and the monad of the program *)

Inductive exn := ValueError | AttributeError.

Inductive result (A : Type) :=
| Ok (a : A)
| Raise (e : exn).
Arguments Ok {A} a.
Arguments Raise {A} e.

Definition M (A : Type) : Type := World -> result A * World.

Definition ret {A} (a : A) : M A := fun w => (Ok a, w).

Definition bind {A B} (m : M A) (k : A -> M B) : M B :=
  fun w => match m w with
           | (Ok a, w') => k a w'
           | (Raise e, w') => (Raise e, w')
           end.

Definition raise {A} (e : exn) : M A := fun w => (Raise e, w).

Notation "x <- m ;; k" := (bind m (fun x => k))
  (at level 61, m at next level, right associativity).
Notation "m ;; k" := (bind m (fun _ => k))
  (at level 61, right associativity).

(** [for x in xs: ...] building one result per element *)
Fixpoint for_each {A B} (xs : list A) (body : A -> M B) : M (list B) :=
  match xs with
  | [] => ret []
  | x :: rest =>
      y <- body x ;;
      ys <- for_each rest body ;;
      ret (y :: ys)
  end.

(** [[x for x in xs if keep(x)]] *)
Fixpoint comprehension_if {A} (xs : list A) (keep : A -> M bool) : M (list A) :=
  match xs with
  | [] => ret []
  | x :: rest =>
      k <- keep x ;;
      ys <- comprehension_if rest keep ;;
      ret (if k then x :: ys else ys)
  end.

(** *** Primitive effects *)

(** [open(ACCOUNTS_FILE, "r")] and reading every line *)
Definition read_accounts : M (list line) :=
  fun w => (Ok (ACCOUNTS_FILE w), w).

(** [open(ACCOUNTS_FILE, "w")] and writing the lines *)
Definition write_accounts (ls : list line) : M unit :=
  fun w => (Ok tt, mkWorld ls (TRANSACTIONS_FILE w) (logged_in_account w) (printed w)).

(** [open(ACCOUNTS_FILE, "a")] and writing one line *)
Definition append_accounts (l : line) : M unit :=
  fun w => (Ok tt, mkWorld (ACCOUNTS_FILE w ++ [l]) (TRANSACTIONS_FILE w)
                           (logged_in_account w) (printed w)).

(** [open(TRANSACTIONS_FILE, "a")] and [writer.writerow] *)
Definition append_transactions (t : txn) : M unit :=
  fun w => (Ok tt, mkWorld (ACCOUNTS_FILE w) (TRANSACTIONS_FILE w ++ [t])
                           (logged_in_account w) (printed w)).

Definition print (m : message) : M unit :=
  fun w => (Ok tt, mkWorld (ACCOUNTS_FILE w) (TRANSACTIONS_FILE w)
                           (logged_in_account w) (printed w ++ [m])).

(** [self.logged_in_account = a] *)
Definition set_logged_in (a : option Account) : M unit :=
  fun w => (Ok tt, mkWorld (ACCOUNTS_FILE w) (TRANSACTIONS_FILE w) a (printed w)).

(** [self.logged_in_account.<attribute>]: on [None] an [AttributeError] *)
Definition the_logged_in : M Account :=
  fun w => match logged_in_account w with
           | Some a => (Ok a, w)
           | None => (Raise AttributeError, w)
           end.

Section Program.
Context `{Builtins}.

(** ** Utility functions *)

Definition hash_password (password : string) : string :=
  sha256_hexdigest password.

(** [lines[-1].split(",")[0]] of a file that is not empty.  ([int] ignores
    white space around the number, so the field of the stripped line reads
    as the same integer.) *)
Definition last_first_field (lines : list line) : string :=
  hd "" (last lines []).

Definition generate_account_number : M Z :=
  lines <- read_accounts ;;
  match lines with
  | [] => ret 100001
  | _ => match py_int (last_first_field lines) with
         | Some last_account => ret (last_account + 1)
         | None => raise ValueError
         end
  end.

(** [if target_account:] is true of a string that is not empty *)
Definition truthy (target_account : option string) : option string :=
  match target_account with
  | Some "" => None
  | other => other
  end.

(** The row [log_transaction] hands to [writer.writerow]. *)
Definition txn_row (account_no txn_type : string) (amount : Z)
    (target_account : option string) : txn :=
  match truthy target_account with
  | Some t => mkTxn account_no (txn_type ++ " to " ++ t)%string amount
  | None => mkTxn account_no txn_type amount
  end.

Definition log_transaction (account_no txn_type : string) (amount : Z)
    (target_account : option string) : M unit :=
  append_transactions (txn_row account_no txn_type amount target_account).

(** ** class Account *)

(** [Account(account_no, name, password, balance, acc_type)] with [balance]
    the text of a field: [float(balance)] may raise. *)
Definition Account_init (account_no name password balance acc_type : string)
    : M Account :=
  match py_float balance with
  | Some b => ret (mkAccount account_no name password b acc_type)
  | None => raise ValueError
  end.

Definition Account_deposit (self : Account) (amount : Z) : M Account :=
  let self := set_balance self (balance self + amount) in
  log_transaction (account_no self) "Deposit" amount None ;;
  ret self.

Definition Account_withdraw (self : Account) (amount : Z) : M (bool * Account) :=
  if amount >? balance self then
    print InsufficientBalance ;;
    ret (false, self)
  else
    let self := set_balance self (balance self - amount) in
    log_transaction (account_no self) "Withdrawal" amount None ;;
    ret (true, self).

(** [self] and [target_account] are never the same object: the first is
    built by [login], the second by [get_all_accounts]. *)
Definition Account_transfer (self target_account : Account) (amount : Z)
    : M (bool * Account * Account) :=
  if amount >? balance self then
    print InsufficientBalanceTransfer ;;
    ret (false, self, target_account)
  else
    let self := set_balance self (balance self - amount) in
    let target_account :=
      set_balance target_account (balance target_account + amount) in
    log_transaction (account_no self) "Transfer" amount
                    (Some (account_no target_account)) ;;
    log_transaction (account_no target_account) "Received" amount
                    (Some (account_no self)) ;;
    ret (true, self, target_account).

(** ** class BankingSystem *)

(** [__init__] in a directory that has neither file. *)
Definition init : World := mkWorld [] [] None [].

Definition create_account (name password acc_type : string) (deposit : Z)
    : M unit :=
  account_no <- generate_account_number ;;
  let hashed_password := hash_password password in
  append_accounts [str_int account_no; name; hashed_password;
                   str_float deposit; acc_type] ;;
  print (AccountCreated account_no).

Fixpoint login_scan (acc_no hashed_password : string) (lines : list line)
    : M bool :=
  match lines with
  | [] =>
      print InvalidLogin ;;
      ret false
  | [account_no; name; pwd; balance; acc_type] :: rest =>
      if ((account_no =? acc_no)%string && (pwd =? hashed_password)%string)%bool
      then
        a <- Account_init account_no name pwd balance acc_type ;;
        set_logged_in (Some a) ;;
        print (Welcome name) ;;
        ret true
      else login_scan acc_no hashed_password rest
  | _ :: _ => raise ValueError
  end.

Definition login (acc_no password : string) : M bool :=
  let hashed_password := hash_password password in
  lines <- read_accounts ;;
  login_scan acc_no hashed_password lines.

Definition save_line (acc : Account) : line :=
  [account_no acc; name acc; password acc; str_float (balance acc); acc_type acc].

Definition save_accounts (accounts : list Account) : M unit :=
  write_accounts (map save_line accounts).

(** [line.strip()] is the empty string *)
Definition blank (l : line) : bool :=
  match l with
  | [""] => true
  | _ => false
  end.

Fixpoint parse_accounts (lines : list line) : M (list Account) :=
  match lines with
  | [] => ret []
  | l :: rest =>
      if blank l then parse_accounts rest
      else
        match l with
        | [account_no; name; pwd; balance; acc_type] =>
            a <- Account_init account_no name pwd balance acc_type ;;
            accounts <- parse_accounts rest ;;
            ret (a :: accounts)
        | _ => raise ValueError
        end
  end.

Definition get_all_accounts : M (list Account) :=
  lines <- read_accounts ;;
  parse_accounts lines.

Definition update_account : M unit :=
  accounts <- get_all_accounts ;;
  accounts <- for_each accounts (fun acc =>
    me <- the_logged_in ;;
    ret (if (account_no acc =? account_no me)%string
         then set_balance acc (balance me) else acc)) ;;
  save_accounts accounts.

Definition deposit (amount : Z) : M unit :=
  me <- the_logged_in ;;
  me <- Account_deposit me amount ;;
  set_logged_in (Some me) ;;
  update_account ;;
  print DepositSuccessful.

Definition withdraw (amount : Z) : M unit :=
  me <- the_logged_in ;;
  r <- Account_withdraw me amount ;;
  let '(ok, me) := r in
  set_logged_in (Some me) ;;
  if ok then
    update_account ;;
    print WithdrawalSuccessful
  else ret tt.

Definition check_balance : M unit :=
  me <- the_logged_in ;;
  print (CurrentBalance (balance me)).

(** The first account of the list with the given number, and its place:
    [for acc in accounts: if acc.account_no == target_no: ...; break]. *)
Fixpoint find_target (target_no : string) (accounts : list Account)
    : option (nat * Account) :=
  match accounts with
  | [] => None
  | acc :: rest =>
      if (account_no acc =? target_no)%string then Some (O, acc)
      else match find_target target_no rest with
           | Some (i, t) => Some (S i, t)
           | None => None
           end
  end.

(** The list after the object at place [i] has been mutated into [x]. *)
Fixpoint mutated_at {A} (i : nat) (x : A) (l : list A) {struct l} : list A :=
  match l, i with
  | [], _ => []
  | _ :: rest, O => x :: rest
  | y :: rest, S j => y :: mutated_at j x rest
  end.

Definition transfer (target_no : string) (amount : Z) : M unit :=
  accounts <- get_all_accounts ;;
  match find_target target_no accounts with
  | Some (i, target_account) =>
      me <- the_logged_in ;;
      r <- Account_transfer me target_account amount ;;
      let '(ok, me, target_account) := r in
      set_logged_in (Some me) ;;
      let accounts := mutated_at i target_account accounts in
      if ok then
        update_account ;;
        save_accounts accounts ;;
        print TransferSuccessful
      else ret tt
  | None => print TargetNotFound
  end.

Definition change_password (old_pwd new_pwd : string) : M unit :=
  me <- the_logged_in ;;
  if negb (hash_password old_pwd =? password me)%string then
    print IncorrectOldPassword
  else
    let me := set_password me (hash_password new_pwd) in
    set_logged_in (Some me) ;;
    accounts <- get_all_accounts ;;
    accounts <- for_each accounts (fun acc =>
      me <- the_logged_in ;;
      ret (if (account_no acc =? account_no me)%string
           then set_password acc (password me) else acc)) ;;
    save_accounts accounts ;;
    print PasswordChanged.

(** [confirm] is the outcome of [confirm.lower() == "yes"]. *)
Definition close_account (confirm : bool) : M unit :=
  if confirm then
    accounts <- get_all_accounts ;;
    accounts <- comprehension_if accounts (fun acc =>
      me <- the_logged_in ;;
      ret (negb (account_no acc =? account_no me)%string)) ;;
    save_accounts accounts ;;
    print AccountClosed ;;
    set_logged_in None
  else ret tt.

(** ** The menus *)

Inductive menu := MainMenu | AccountMenu | Exited.

(** What the user enters at the main menu, with the answers to the prompts
    of the chosen operation. *)
Inductive main_choice :=
| Main1 (name password acc_type : string) (deposit : Z)
| Main2 (acc_no password : string)
| Main3
| MainOther.

(** What the user enters at the account menu. *)
Inductive account_choice :=
| Acct1 (amount : Z)
| Acct2 (amount : Z)
| Acct3
| Acct4 (target_no : string) (amount : Z)
| Acct5 (old_pwd new_pwd : string)
| Acct6 (confirm : bool)
| Acct7
| AcctOther.

(** One turn of the loop of [main_menu]; the result is the menu that reads
    the next choice. *)
Definition main_menu (c : main_choice) : M menu :=
  match c with
  | Main1 name password acc_type deposit =>
      create_account name password acc_type deposit ;;
      ret MainMenu
  | Main2 acc_no password =>
      ok <- login acc_no password ;;
      ret (if ok then AccountMenu else MainMenu)
  | Main3 =>
      print ThankYou ;;
      ret Exited
  | MainOther =>
      print InvalidChoice ;;
      ret MainMenu
  end.

(** One turn of the loop of [account_menu]; [break] returns to the main
    menu. *)
Definition account_menu (c : account_choice) : M menu :=
  match c with
  | Acct1 amount => deposit amount ;; ret AccountMenu
  | Acct2 amount => withdraw amount ;; ret AccountMenu
  | Acct3 => check_balance ;; ret AccountMenu
  | Acct4 target_no amount => transfer target_no amount ;; ret AccountMenu
  | Acct5 old_pwd new_pwd => change_password old_pwd new_pwd ;; ret AccountMenu
  | Acct6 confirm => close_account confirm ;; ret MainMenu
  | Acct7 => print LoggedOut ;; ret MainMenu
  | AcctOther => print InvalidChoice ;; ret AccountMenu
  end.

(** A choice, tagged with the menu that reads it. *)
Inductive choice :=
| AtMain (c : main_choice)
| AtAccount (c : account_choice).

(** Where the program stands after a turn: an exception ends it. *)
Definition after (r : result menu * World) : menu * World :=
  match r with
  | (Ok m, w) => (m, w)
  | (Raise _, w) => (Exited, w)
  end.

(** One turn: the choice has to be one the current menu reads. *)
Definition turn (c : choice) (cfg : menu * World) : option (menu * World) :=
  match c, fst cfg with
  | AtMain c, MainMenu => Some (after (main_menu c (snd cfg)))
  | AtAccount c, AccountMenu => Some (after (account_menu c (snd cfg)))
  | _, _ => None
  end.

Fixpoint run (cs : list choice) (cfg : menu * World) : option (menu * World) :=
  match cs with
  | [] => Some cfg
  | c :: rest =>
      match turn c cfg with
      | Some cfg' => run rest cfg'
      | None => None
      end
  end.

(** ** Vocabulary of the statements *)

(** The world with [accounts.txt] rewritten. *)
Definition with_accounts (ls : list line) (w : World) : World :=
  mkWorld ls (TRANSACTIONS_FILE w) (logged_in_account w) (printed w).

(** The world with rows appended to [transactions.txt]. *)
Definition with_logged (rows : list txn) (w : World) : World :=
  mkWorld (ACCOUNTS_FILE w) (TRANSACTIONS_FILE w ++ rows)
          (logged_in_account w) (printed w).

(** The world with another object in [self.logged_in_account]. *)
Definition with_session (a : option Account) (w : World) : World :=
  mkWorld (ACCOUNTS_FILE w) (TRANSACTIONS_FILE w) a (printed w).

(** The world with one more message on the terminal. *)
Definition with_message (m : message) (w : World) : World :=
  mkWorld (ACCOUNTS_FILE w) (TRANSACTIONS_FILE w) (logged_in_account w)
          (printed w ++ [m]).

(** The records a fresh read of the store returns. *)
Definition stored (w : World) : result (list Account) :=
  fst (get_all_accounts w).

(** The records a read returns when the file holds the lines [ls]. *)
Definition records_of (ls : list line) : result (list Account) :=
  fst (parse_accounts ls init).

(** What the loop of [update_account] does to one record. *)
Definition synced (me acc : Account) : Account :=
  if (account_no acc =? account_no me)%string
  then set_balance acc (balance me) else acc.

(** What the loop of [change_password] does to one record. *)
Definition repassworded (me acc : Account) : Account :=
  if (account_no acc =? account_no me)%string
  then set_password acc (password me) else acc.

(** The filter of [close_account]. *)
Definition others (me acc : Account) : bool :=
  negb (account_no acc =? account_no me)%string.

(** A line that unpacks into five fields. *)
Definition five_fields (l : line) : Prop :=
  match l with
  | [_; _; _; _; _] => True
  | _ => False
  end.

(** The account number of a line, as text. *)
Definition line_account_no (l : line) : string := hd "" l.

(** [l] is the record of the account whose number reads as [n]: five
    fields, the first an integer, the fourth a float. *)
Definition record_of (l : line) (n : Z) : Prop :=
  match l with
  | [account_no; _; _; balance; _] =>
      py_int account_no = Some n /\ py_float balance <> None
  | _ => False
  end.

(** The account object [a] has the number [n]. *)
Definition numbered (a : Account) (n : Z) : Prop :=
  py_int (account_no a) = Some n.

(** The store holds exactly the records of the ids [ids], in this order. *)
Definition store_ids (w : World) (ids : list Z) : Prop :=
  Forall2 record_of (ACCOUNTS_FILE w) ids.

(** The ids of the store increase along the file. *)
Definition ordered (w : World) : Prop :=
  exists ids, store_ids w ids /\ StronglySorted Z.lt ids.



(** A world the program reaches from [init]. *)
Definition reachable (cfg : menu * World) : Prop :=
  exists cs, run cs (MainMenu, init) = Some cfg.

(** The balance of a line that is a record. *)
Definition line_balance (l : line) : option Z :=
  match l with
  | [_; _; _; balance; _] => py_float balance
  | _ => None
  end.













End Program.

(** ** The allocation rule in the words of the specification *)

Fixpoint maximum (x : Z) (xs : list Z) : Z :=
  match xs with
  | [] => x
  | y :: ys => Z.max x (maximum y ys)
  end.

(** One greater than the maximum existing id, or the base id if the store
    is empty. *)
Definition allocate_id_spec (ids : list Z) : Z :=
  match ids with
  | [] => 100001
  | x :: xs => maximum x xs + 1
  end.

(** ** An instance of the built-ins, for concrete runs

    Decimal integers for both number formats and a digest that is a tag in
    front of the secret. *)
Definition demo_number (s : string) : option Z :=
  option_map Z.of_int (NilZero.int_of_string s).

Definition demo_text (z : Z) : string :=
  NilZero.string_of_int (Z.to_int z).

Definition demo : Builtins := {|
  sha256_hexdigest := fun s => String "#" s;
  py_float := demo_number;
  str_float := demo_text;
  py_int := demo_number;
  str_int := demo_text
|}.


Definition asha : Account := mkAccount "100001" "asha" "#pw" 100 "Savings".

Definition ben : Account := mkAccount "100002" "ben" "#qq" 0 "Current".

(** The world after [opening]. *)
Definition two_accounts : World :=
  mkWorld [["100001"; "asha"; "#pw"; "100"; "Savings"];
           ["100002"; "ben"; "#qq"; "0"; "Current"]]
          [] (Some asha)
          [AccountCreated 100001; AccountCreated 100002; Welcome "asha"].

(** ** Vocabulary of the further properties *)

Section MoreVocabulary.
Context `{Builtins}.

(** A line [get_all_accounts] gets past: white space only, or five fields
    with a balance that [float] reads. *)
Definition readable (l : line) : Prop :=
  blank l = true \/ (five_fields l /\ line_balance l <> None).


End MoreVocabulary.




(** Two damaged files: a blank line between the records, and a line that
    does not unpack after them. *)
Definition with_blank_line : World :=
  mkWorld [["100001"; "asha"; "#pw"; "100"; "Savings"];
           [""];
           ["100002"; "ben"; "#qq"; "0"; "Current"]]
          [] None [].

Definition with_bad_tail : World :=
  mkWorld [["100001"; "asha"; "#pw"; "100"; "Savings"];
           ["100002"; "ben"; "#qq"; "0"; "Current"];
           ["garbage"]]
          [] None [].

(** ** Facts about the embedding *)

Section Facts.
Context `{Builtins}.

Lemma bind_eq {A B : Type} (m : M A) (k : A -> M B) (w : World) :
  bind m k w =
  match m w with
  | (Ok a, w') => k a w'
  | (Raise e, w') => (Raise e, w')
  end.
Proof. reflexivity. Qed.

Lemma parse_accounts_eq (ls : list line) (w : World) :
  parse_accounts ls w = (fst (parse_accounts ls init), w).
Proof.
  induction ls as [|l rest IH]; [reflexivity|].
  cbn [parse_accounts].
  destruct (blank l); [exact IH|].
  destruct l as [|a [|n [|p [|b [|t [|]]]]]]; try reflexivity.
  unfold bind, Account_init.
  destruct (py_float b); [|reflexivity].
  unfold ret. rewrite IH.
  destruct (parse_accounts rest init) as [[accs|e] w0]; reflexivity.
Qed.

Lemma get_all_accounts_eq (w : World) :
  get_all_accounts w = (stored w, w).
Proof.
  unfold stored, get_all_accounts, bind, read_accounts.
  rewrite parse_accounts_eq. reflexivity.
Qed.

Lemma stored_eq (w : World) :
  stored w = fst (parse_accounts (ACCOUNTS_FILE w) init).
Proof.
  unfold stored, get_all_accounts, bind, read_accounts.
  rewrite parse_accounts_eq. reflexivity.
Qed.

Lemma for_each_me {B : Type} (f : Account -> Account -> B)
    (accs : list Account) (w : World) :
  for_each accs (fun acc => me <- the_logged_in ;; ret (f me acc)) w =
  (match logged_in_account w with
   | Some me => Ok (map (f me) accs)
   | None => match accs with [] => Ok [] | _ => Raise AttributeError end
   end, w).
Proof.
  induction accs as [|a rest IH]; cbn [for_each map].
  - unfold ret. destruct (logged_in_account w); reflexivity.
  - rewrite bind_eq, bind_eq. unfold the_logged_in at 1.
    destruct (logged_in_account w) as [me|] eqn:E; [|reflexivity].
    cbn beta iota. unfold ret at 1. cbn beta iota.
    rewrite bind_eq, IH. reflexivity.
Qed.

Lemma comprehension_if_me (f : Account -> Account -> bool)
    (accs : list Account) (w : World) :
  comprehension_if accs (fun acc => me <- the_logged_in ;; ret (f me acc)) w =
  (match logged_in_account w with
   | Some me => Ok (filter (f me) accs)
   | None => match accs with [] => Ok [] | _ => Raise AttributeError end
   end, w).
Proof.
  induction accs as [|a rest IH]; cbn [comprehension_if filter].
  - unfold ret. destruct (logged_in_account w); reflexivity.
  - rewrite bind_eq, bind_eq. unfold the_logged_in at 1.
    destruct (logged_in_account w) as [me|] eqn:E; [|reflexivity].
    cbn beta iota. unfold ret at 1. cbn beta iota.
    rewrite bind_eq, IH. unfold ret.
    destruct (f me a); reflexivity.
Qed.

Lemma update_account_eq (w : World) :
  update_account w =
  match stored w with
  | Raise e => (Raise e, w)
  | Ok accs =>
      match logged_in_account w with
      | Some me => (Ok tt, with_accounts (map save_line (map (synced me) accs)) w)
      | None =>
          match accs with
          | [] => (Ok tt, with_accounts [] w)
          | _ => (Raise AttributeError, w)
          end
      end
  end.
Proof.
  unfold update_account. rewrite bind_eq, get_all_accounts_eq.
  destruct (stored w) as [accs|e]; [|reflexivity].
  rewrite bind_eq, (for_each_me synced).
  destruct (logged_in_account w); [reflexivity|].
  destruct accs; reflexivity.
Qed.


(** *** The world of a read depends on the accounts file only *)

Lemma stored_with_logged rows w : stored (with_logged rows w) = stored w.
Proof. rewrite !stored_eq. reflexivity. Qed.

Lemma stored_with_session a w : stored (with_session a w) = stored w.
Proof. rewrite !stored_eq. reflexivity. Qed.

(** *** Closed forms of the methods of [Account] *)

Lemma Account_deposit_eq me amount w :
  Account_deposit me amount w =
  (Ok (set_balance me (balance me + amount)),
   with_logged [txn_row (account_no me) "Deposit" amount None] w).
Proof. reflexivity. Qed.

Lemma Account_withdraw_eq me amount w :
  Account_withdraw me amount w =
  if amount >? balance me
  then (Ok (false, me), with_message InsufficientBalance w)
  else (Ok (true, set_balance me (balance me - amount)),
        with_logged [txn_row (account_no me) "Withdrawal" amount None] w).
Proof. unfold Account_withdraw. destruct (amount >? balance me); reflexivity. Qed.

Lemma Account_transfer_eq me target amount w :
  Account_transfer me target amount w =
  if amount >? balance me
  then (Ok (false, me, target), with_message InsufficientBalanceTransfer w)
  else (Ok (true, set_balance me (balance me - amount),
            set_balance target (balance target + amount)),
        with_logged
          [txn_row (account_no me) "Transfer" amount (Some (account_no target));
           txn_row (account_no target) "Received" amount (Some (account_no me))]
          w).
Proof.
  unfold Account_transfer. destruct (amount >? balance me); [reflexivity|].
  destruct w; cbn. rewrite <- app_assoc. reflexivity.
Qed.

(** *** Closed forms of the operations of [BankingSystem] *)

Lemma deposit_eq amount w :
  deposit amount w =
  match logged_in_account w with
  | None => (Raise AttributeError, w)
  | Some me =>
      let me' := set_balance me (balance me + amount) in
      let w1 := with_session (Some me')
                  (with_logged [txn_row (account_no me) "Deposit" amount None] w) in
      match stored w with
      | Raise e => (Raise e, w1)
      | Ok accs =>
          (Ok tt, with_message DepositSuccessful
                    (with_accounts (map save_line (map (synced me') accs)) w1))
      end
  end.
Proof.
  unfold deposit. rewrite bind_eq. unfold the_logged_in at 1.
  destruct (logged_in_account w) as [me|] eqn:E; [|reflexivity].
  cbn beta iota zeta. rewrite bind_eq, Account_deposit_eq. cbn beta iota.
  rewrite bind_eq. unfold set_logged_in at 1. cbn beta iota.
  rewrite bind_eq, update_account_eq.
  fold (with_session (Some (set_balance me (balance me + amount)))
          (with_logged [txn_row (account_no me) "Deposit" amount None] w)).
  rewrite stored_with_session, stored_with_logged.
  destruct (stored w); reflexivity.
Qed.

Lemma withdraw_eq amount w :
  withdraw amount w =
  match logged_in_account w with
  | None => (Raise AttributeError, w)
  | Some me =>
      if amount >? balance me then (Ok tt, with_message InsufficientBalance w)
      else
        let me' := set_balance me (balance me - amount) in
        let w1 := with_session (Some me')
                    (with_logged [txn_row (account_no me) "Withdrawal" amount None] w) in
        match stored w with
        | Raise e => (Raise e, w1)
        | Ok accs =>
            (Ok tt, with_message WithdrawalSuccessful
                      (with_accounts (map save_line (map (synced me') accs)) w1))
        end
  end.
Proof.
  unfold withdraw. rewrite bind_eq. unfold the_logged_in at 1.
  destruct (logged_in_account w) as [me|] eqn:E; [|reflexivity].
  cbn beta iota zeta. rewrite bind_eq, Account_withdraw_eq.
  destruct (amount >? balance me).
  - cbn beta iota. rewrite bind_eq. unfold set_logged_in, ret.
    cbn. unfold with_message. rewrite E. reflexivity.
  - cbn beta iota. rewrite bind_eq. unfold set_logged_in at 1. cbn beta iota.
    rewrite bind_eq, update_account_eq.
    fold (with_session (Some (set_balance me (balance me - amount)))
            (with_logged [txn_row (account_no me) "Withdrawal" amount None] w)).
    rewrite stored_with_session, stored_with_logged.
    destruct (stored w); reflexivity.
Qed.


Lemma transfer_eq target_no amount w :
  transfer target_no amount w =
  match stored w with
  | Raise e => (Raise e, w)
  | Ok accounts =>
      match find_target target_no accounts with
      | None => (Ok tt, with_message TargetNotFound w)
      | Some (i, target) =>
          match logged_in_account w with
          | None => (Raise AttributeError, w)
          | Some me =>
              if amount >? balance me
              then (Ok tt, with_message InsufficientBalanceTransfer w)
              else
                let me' := set_balance me (balance me - amount) in
                let target' := set_balance target (balance target + amount) in
                (Ok tt,
                 with_message TransferSuccessful
                   (with_accounts (map save_line (mutated_at i target' accounts))
                      (with_session (Some me')
                         (with_logged
                            [txn_row (account_no me) "Transfer" amount
                                     (Some (account_no target));
                             txn_row (account_no target) "Received" amount
                                     (Some (account_no me))] w))))
          end
      end
  end.
Proof.
  unfold transfer. rewrite bind_eq, get_all_accounts_eq.
  destruct (stored w) as [accounts|e] eqn:S; [|reflexivity].
  destruct (find_target target_no accounts) as [[i target]|]; [|reflexivity].
  rewrite bind_eq. unfold the_logged_in at 1.
  destruct (logged_in_account w) as [me|] eqn:E; [|reflexivity].
  cbn beta iota. rewrite bind_eq, Account_transfer_eq.
  destruct (amount >? balance me).
  - cbn beta iota. rewrite bind_eq. unfold set_logged_in, ret.
    cbn. unfold with_message. rewrite E. reflexivity.
  - cbn beta iota zeta. rewrite bind_eq. unfold set_logged_in at 1.
    cbn beta iota. rewrite bind_eq, update_account_eq.
    match goal with
    | |- context [stored ?w1] =>
        replace (stored w1) with (stored w) by (rewrite !stored_eq; reflexivity)
    end.
    rewrite S. reflexivity.
Qed.

Lemma change_password_eq old_pwd new_pwd w :
  change_password old_pwd new_pwd w =
  match logged_in_account w with
  | None => (Raise AttributeError, w)
  | Some me =>
      if (hash_password old_pwd =? password me)%string then
        let me' := set_password me (hash_password new_pwd) in
        let w1 := with_session (Some me') w in
        match stored w with
        | Raise e => (Raise e, w1)
        | Ok accs =>
            (Ok tt, with_message PasswordChanged
                      (with_accounts (map save_line (map (repassworded me') accs)) w1))
        end
      else (Ok tt, with_message IncorrectOldPassword w)
  end.
Proof.
  unfold change_password. rewrite bind_eq. unfold the_logged_in at 1.
  destruct (logged_in_account w) as [me|] eqn:E; [|reflexivity].
  cbn beta iota.
  destruct (hash_password old_pwd =? password me)%string; [|reflexivity].
  cbn [negb]. cbn beta iota zeta. rewrite bind_eq. unfold set_logged_in at 1.
  cbn beta iota. rewrite bind_eq, get_all_accounts_eq.
  fold (with_session (Some (set_password me (hash_password new_pwd))) w).
  rewrite stored_with_session.
  destruct (stored w) as [accs|e]; [|reflexivity].
  rewrite bind_eq, (for_each_me repassworded). reflexivity.
Qed.

Lemma close_account_eq confirm w :
  close_account confirm w =
  if confirm then
    match stored w with
    | Raise e => (Raise e, w)
    | Ok accs =>
        match logged_in_account w with
        | Some me =>
            (Ok tt, with_session None
                      (with_message AccountClosed
                         (with_accounts (map save_line (filter (others me) accs)) w)))
        | None =>
            match accs with
            | [] => (Ok tt, with_session None
                              (with_message AccountClosed (with_accounts [] w)))
            | _ => (Raise AttributeError, w)
            end
        end
    end
  else (Ok tt, w).
Proof.
  unfold close_account. destruct confirm; [|reflexivity].
  rewrite bind_eq, get_all_accounts_eq.
  destruct (stored w) as [accs|e]; [|reflexivity].
  rewrite bind_eq, (comprehension_if_me others).
  destruct (logged_in_account w); [reflexivity|].
  destruct accs; reflexivity.
Qed.

Lemma generate_account_number_eq w :
  generate_account_number w =
  (match ACCOUNTS_FILE w with
   | [] => Ok 100001
   | _ => match py_int (last_first_field (ACCOUNTS_FILE w)) with
          | Some last_account => Ok (last_account + 1)
          | None => Raise ValueError
          end
   end, w).
Proof.
  unfold generate_account_number. rewrite bind_eq. unfold read_accounts.
  destruct (ACCOUNTS_FILE w); [reflexivity|].
  destruct (py_int _); reflexivity.
Qed.

Lemma create_account_eq name password acc_type deposit w :
  create_account name password acc_type deposit w =
  match fst (generate_account_number w) with
  | Ok n =>
      (Ok tt,
       with_message (AccountCreated n)
         (with_accounts
            (ACCOUNTS_FILE w ++
             [[str_int n; name; hash_password password; str_float deposit; acc_type]])
            w))
  | Raise e => (Raise e, w)
  end.
Proof.
  unfold create_account. rewrite bind_eq, generate_account_number_eq.
  cbn [fst].
  destruct (match ACCOUNTS_FILE w with [] => _ | _ => _ end); reflexivity.
Qed.


(** *** Reading lines *)

Lemma stored_records w : stored w = records_of (ACCOUNTS_FILE w).
Proof. apply stored_eq. Qed.


Lemma blank_fields a b (rest : list string) : blank (a :: b :: rest) = false.
Proof. destruct a; reflexivity. Qed.

Lemma records_of_blank l rest :
  blank l = true -> records_of (l :: rest) = records_of rest.
Proof.
  intros Hb. unfold records_of. cbn [parse_accounts]. rewrite Hb. reflexivity.
Qed.

Lemma records_of_record a n p b t rest :
  records_of ([a; n; p; b; t] :: rest) =
  match py_float b with
  | Some x =>
      match records_of rest with
      | Ok accs => Ok (mkAccount a n p x t :: accs)
      | Raise e => Raise e
      end
  | None => Raise ValueError
  end.
Proof.
  unfold records_of. cbn [parse_accounts]. rewrite blank_fields.
  rewrite bind_eq. unfold Account_init.
  destruct (py_float b); [|reflexivity].
  unfold ret at 1. cbn beta iota. rewrite bind_eq, parse_accounts_eq.
  destruct (fst (parse_accounts rest init)); reflexivity.
Qed.

Lemma records_of_other l rest :
  blank l = false -> ~ five_fields l -> records_of (l :: rest) = Raise ValueError.
Proof.
  intros Hb Hf. unfold records_of. cbn [parse_accounts]. rewrite Hb.
  destruct l as [|a [|n [|p [|b [|t [|]]]]]]; try reflexivity.
  exfalso. apply Hf. exact I.
Qed.

(** A read of what [save_accounts] wrote returns the accounts written. *)
Lemma records_of_saved (accs : list Account) :
  float_roundtrip -> records_of (map save_line accs) = Ok accs.
Proof.
  intros Hf. induction accs as [|a rest IH]; [reflexivity|].
  cbn [map]. unfold save_line at 1. rewrite records_of_record, Hf, IH.
  destruct a; reflexivity.
Qed.



(** *** The target of a transfer *)

Lemma find_target_account_no t accs i a :
  find_target t accs = Some (i, a) -> account_no a = t.
Proof.
  revert i. induction accs as [|x rest IH]; intros i Hf; [discriminate|].
  cbn [find_target] in Hf.
  destruct (account_no x =? t)%string eqn:E.
  - injection Hf as <- <-. apply String.eqb_eq. exact E.
  - destruct (find_target t rest) as [[j y]|]; [|discriminate].
    injection Hf as <- <-. apply (IH j). reflexivity.
Qed.

Lemma find_target_mutated_same t accs i a a' :
  find_target t accs = Some (i, a) -> account_no a' = t ->
  find_target t (mutated_at i a' accs) = Some (i, a').
Proof.
  intros Hf Ha'. revert i Hf.
  induction accs as [|x rest IH]; intros i Hf; [discriminate|].
  cbn [find_target] in Hf.
  destruct (account_no x =? t)%string eqn:E.
  - injection Hf as <- <-. cbn [mutated_at find_target].
    rewrite Ha', String.eqb_refl. reflexivity.
  - destruct (find_target t rest) as [[j y]|] eqn:F; [|discriminate].
    injection Hf as <- <-. cbn [mutated_at find_target]. rewrite E.
    rewrite (IH j) by reflexivity. reflexivity.
Qed.

Lemma find_target_mutated_other s t accs i a a' :
  find_target t accs = Some (i, a) -> account_no a' = t -> s <> t ->
  find_target s (mutated_at i a' accs) = find_target s accs.
Proof.
  intros Hf Ha' Hst. revert i Hf.
  induction accs as [|x rest IH]; intros i Hf; [discriminate|].
  cbn [find_target] in Hf.
  destruct (account_no x =? t)%string eqn:E.
  - injection Hf as <- <-. cbn [mutated_at find_target].
    apply String.eqb_eq in E. rewrite Ha', E.
    destruct (t =? s)%string eqn:E'; [|reflexivity].
    apply String.eqb_eq in E'. congruence.
  - destruct (find_target t rest) as [[j y]|] eqn:F; [|discriminate].
    injection Hf as <- <-. cbn [mutated_at find_target].
    rewrite (IH j) by reflexivity. reflexivity.
Qed.

Lemma not_greater amount b : amount <= b -> (amount >? b) = false.
Proof. intros Hle. rewrite Z.gtb_ltb. apply Z.ltb_ge. exact Hle. Qed.


(** The world a successful transfer leaves: the list read before the
    debit, with the target credited, is what the last write stores. *)
Lemma transfer_succeeds target_no amount w me accounts i target :
  logged_in_account w = Some me ->
  stored w = Ok accounts ->
  find_target target_no accounts = Some (i, target) ->
  amount <= balance me ->
  transfer target_no amount w =
  (Ok tt,
   with_message TransferSuccessful
     (with_accounts
        (map save_line
           (mutated_at i (set_balance target (balance target + amount)) accounts))
        (with_session (Some (set_balance me (balance me - amount)))
           (with_logged
              [txn_row (account_no me) "Transfer" amount (Some target_no);
               txn_row target_no "Received" amount (Some (account_no me))] w)))).
Proof.
  intros Hme Hs Hf Hle. rewrite transfer_eq, Hs, Hf, Hme, (not_greater _ _ Hle).
  rewrite (find_target_account_no _ _ _ _ Hf). reflexivity.
Qed.


(** The two writes of a successful transfer: [update_account] stores the
    debit, then [save_accounts] stores the list read before the debit with
    the target credited. *)
Lemma transfer_writes_twice target_no amount w me accounts i target :
  logged_in_account w = Some me ->
  stored w = Ok accounts ->
  find_target target_no accounts = Some (i, target) ->
  amount <= balance me ->
  let me' := set_balance me (balance me - amount) in
  let target' := set_balance target (balance target + amount) in
  let w1 := with_session (Some me')
              (with_logged
                 [txn_row (account_no me) "Transfer" amount (Some target_no);
                  txn_row target_no "Received" amount (Some (account_no me))] w) in
  update_account w1 =
    (Ok tt, with_accounts (map save_line (map (synced me') accounts)) w1) /\
  transfer target_no amount w =
    (Ok tt,
     with_message TransferSuccessful
       (snd (save_accounts (mutated_at i target' accounts)
               (snd (update_account w1))))).
Proof.
  intros Hme Hs Hf Hle me' target' w1.
  assert (Hu : update_account w1 =
    (Ok tt, with_accounts (map save_line (map (synced me') accounts)) w1)).
  { rewrite update_account_eq. subst w1.
    rewrite stored_with_session, stored_with_logged, Hs. reflexivity. }
  split; [exact Hu|].
  rewrite Hu. rewrite (transfer_succeeds _ _ w me accounts i target Hme Hs Hf Hle).
  reflexivity.
Qed.

(** *** Login *)

Lemma login_scan_cases a h ls w :
  (exists e, login_scan a h ls w = (Raise e, w)) \/
  login_scan a h ls w = (Ok false, with_message InvalidLogin w) \/
  (exists n b t x,
     In [a; n; h; b; t] ls /\ py_float b = Some x /\
     login_scan a h ls w =
       (Ok true, with_message (Welcome n)
                   (with_session (Some (mkAccount a n h x t)) w))).
Proof.
  induction ls as [|l rest IH].
  - right. left. reflexivity.
  - destruct l as [|f1 [|f2 [|f3 [|f4 [|f5 [|]]]]]];
      try (left; exists ValueError; reflexivity).
    cbn [login_scan].
    destruct ((f1 =? a)%string && (f3 =? h)%string)%bool eqn:E.
    + apply andb_prop in E. destruct E as [E1 E3].
      apply String.eqb_eq in E1, E3. subst f1 f3.
      rewrite bind_eq. unfold Account_init.
      destruct (py_float f4) as [x|] eqn:Hx.
      * right. right. exists f2, f4, f5, x.
        split; [left; reflexivity|]. split; [exact Hx|reflexivity].
      * left. exists ValueError. reflexivity.
    + destruct IH as [IH|[IH|(n & b & t & x & Hin & Hx & IH)]].
      * left. exact IH.
      * right. left. exact IH.
      * right. right. exists n, b, t, x. split; [right; exact Hin|]. split; assumption.
Qed.

(** No line carries both the number and the digest: the scan fails. *)
Lemma login_scan_no_match a h ls w :
  Forall five_fields ls ->
  (forall n b t, ~ In [a; n; h; b; t] ls) ->
  login_scan a h ls w = (Ok false, with_message InvalidLogin w).
Proof.
  induction ls as [|l rest IH]; intros Hff Hno; [reflexivity|].
  inversion Hff as [|l' rest' Hl Hrest]; subst.
  destruct l as [|f1 [|f2 [|f3 [|f4 [|f5 [|]]]]]]; try contradiction.
  cbn [login_scan].
  destruct ((f1 =? a)%string && (f3 =? h)%string)%bool eqn:E.
  - apply andb_prop in E. destruct E as [E1 E3].
    apply String.eqb_eq in E1, E3. subst f1 f3.
    exfalso. apply (Hno f2 f4 f5). left. reflexivity.
  - apply IH; [exact Hrest|]. intros n b t Hin. apply (Hno n b t). right. exact Hin.
Qed.

(** The one line of the account carries the digest: the scan stops there. *)
Lemma login_scan_match a n h b t x ls w :
  Forall five_fields ls ->
  NoDup (map line_account_no ls) ->
  In [a; n; h; b; t] ls ->
  py_float b = Some x ->
  login_scan a h ls w =
    (Ok true, with_message (Welcome n)
                (with_session (Some (mkAccount a n h x t)) w)).
Proof.
  induction ls as [|l rest IH]; intros Hff Hnd Hin Hx; [destruct Hin|].
  inversion Hff as [|l' rest' Hl Hrest]; subst.
  cbn [map] in Hnd. inversion Hnd as [|k ks Hk Hks]; subst.
  destruct Hin as [->|Hin].
  - cbn [login_scan]. rewrite !String.eqb_refl. cbn [andb].
    rewrite bind_eq. unfold Account_init. rewrite Hx. reflexivity.
  - destruct l as [|f1 [|f2 [|f3 [|f4 [|f5 [|]]]]]]; try contradiction.
    cbn [login_scan].
    destruct (f1 =? a)%string eqn:E1.
    + apply String.eqb_eq in E1. subst f1. exfalso. apply Hk.
      apply (in_map line_account_no) in Hin. exact Hin.
    + cbn [andb]. apply IH; assumption.
Qed.

Lemma login_eq a p w :
  login a p w = login_scan a (hash_password p) (ACCOUNTS_FILE w) w.
Proof. reflexivity. Qed.

(** *** What a turn prints *)

Lemma login_cases a p w :
  (exists e, login a p w = (Raise e, w)) \/
  login a p w = (Ok false, with_message InvalidLogin w) \/
  (exists n b t x,
     In [a; n; hash_password p; b; t] (ACCOUNTS_FILE w) /\ py_float b = Some x /\
     login a p w =
       (Ok true, with_message (Welcome n)
                   (with_session (Some (mkAccount a n (hash_password p) x t)) w))).
Proof. rewrite login_eq. apply login_scan_cases. Qed.





(** *** Synchronising the store with the session *)

Lemma synced_account_no me a : account_no (synced me a) = account_no a.
Proof. unfold synced. destruct (account_no a =? account_no me)%string; reflexivity. Qed.



Lemma deposit_turn w me accs amount :
  float_roundtrip ->
  logged_in_account w = Some me ->
  stored w = Ok accs ->
  let me' := set_balance me (balance me + amount) in
  exists w',
    turn (AtAccount (Acct1 amount)) (AccountMenu, w) = Some (AccountMenu, w') /\
    printed w' = printed w ++ [DepositSuccessful] /\
    logged_in_account w' = Some me' /\
    stored w' = Ok (map (synced me') accs).
Proof.
  intros Hf Hme Hs me'. cbn [turn fst snd]. unfold account_menu.
  rewrite bind_eq, deposit_eq, Hme. cbv zeta. rewrite Hs.
  eexists. split; [reflexivity|]. split; [reflexivity|]. split; [reflexivity|].
  rewrite stored_records. cbn. apply records_of_saved. exact Hf.
Qed.



(** *** Runs *)

(** A property of menu and world that every turn with a choice in [Q]
    preserves holds along every run of such choices. *)
Lemma run_preserves (Q : choice -> Prop) (P : menu * World -> Prop) :
  (forall c cfg cfg', Q c -> turn c cfg = Some cfg' -> P cfg -> P cfg') ->
  forall cs cfg cfg',
    Forall Q cs -> run cs cfg = Some cfg' -> P cfg -> P cfg'.
Proof.
  intros Hstep cs. induction cs as [|c rest IH]; intros cfg cfg' HQ Hrun HP.
  - injection Hrun as <-. exact HP.
  - inversion HQ as [|c' rest' Hc Hrest]; subst.
    cbn [run] in Hrun. destruct (turn c cfg) as [cfg1|] eqn:Ht; [|discriminate].
    apply (IH cfg1 cfg' Hrest Hrun). apply (Hstep c cfg cfg1 Hc Ht HP).
Qed.

Lemma Forall_any (cs : list choice) : Forall (fun _ => True) cs.
Proof. apply Forall_forall. intros; exact I. Qed.

(** *** Balances that are not negative *)







Lemma find_target_In t accs i a : find_target t accs = Some (i, a) -> In a accs.
Proof.
  revert i. induction accs as [|x rest IH]; intros i Hf; [discriminate|].
  cbn [find_target] in Hf.
  destruct (account_no x =? t)%string.
  - injection Hf as <- <-. left. reflexivity.
  - destruct (find_target t rest) as [[j y]|]; [|discriminate].
    injection Hf as <- <-. right. apply (IH j). reflexivity.
Qed.






(** *** Ids in increasing order *)

Lemma records_of_ids ls ids :
  Forall2 record_of ls ids ->
  exists accs, records_of ls = Ok accs /\ Forall2 numbered accs ids.
Proof.
  induction 1 as [|l n rest ns Hl Hrest IH].
  - exists []. split; [reflexivity|constructor].
  - destruct IH as (accs & Hr & Hn).
    destruct l as [|a [|nm [|p [|b [|t [|]]]]]]; try contradiction.
    destruct Hl as [Ha Hb]. rewrite records_of_record, Hr.
    destruct (py_float b) as [x|]; [|contradiction].
    exists (mkAccount a nm p x t :: accs). split; [reflexivity|].
    constructor; [exact Ha|exact Hn].
Qed.

Lemma saved_ids accs ids :
  float_roundtrip -> Forall2 numbered accs ids ->
  Forall2 record_of (map save_line accs) ids.
Proof.
  intros Hf. induction 1 as [|a n rest ns Ha Hrest IH]; cbn [map]; constructor.
  - cbn. split; [exact Ha|]. rewrite Hf. discriminate.
  - exact IH.
Qed.

Lemma numbered_map (f : Account -> Account) accs ids :
  (forall a, account_no (f a) = account_no a) ->
  Forall2 numbered accs ids -> Forall2 numbered (map f accs) ids.
Proof.
  intros Hf. induction 1 as [|a n rest ns Ha Hrest IH]; cbn [map]; constructor.
  - unfold numbered. rewrite Hf. exact Ha.
  - exact IH.
Qed.

Lemma numbered_mutated t accs ids i a a' :
  find_target t accs = Some (i, a) -> account_no a' = account_no a ->
  Forall2 numbered accs ids -> Forall2 numbered (mutated_at i a' accs) ids.
Proof.
  intros Hfind Ha' Hn. revert i Hfind.
  induction Hn as [|x n rest ns Hx Hrest IH]; intros i Hfind; [discriminate|].
  cbn [find_target] in Hfind.
  destruct (account_no x =? t)%string.
  - injection Hfind as <- <-. cbn [mutated_at]. constructor; [|exact Hrest].
    unfold numbered. rewrite Ha'. exact Hx.
  - destruct (find_target t rest) as [[j y]|]; [|discriminate].
    injection Hfind as <- <-. cbn [mutated_at]. constructor; [exact Hx|].
    apply (IH j). reflexivity.
Qed.

Lemma numbered_filter (keep : Account -> bool) accs ids :
  Forall2 numbered accs ids -> StronglySorted Z.lt ids ->
  exists ids', Forall2 numbered (filter keep accs) ids' /\
               StronglySorted Z.lt ids' /\
               (forall n, In n ids' -> In n ids).
Proof.
  induction 1 as [|a n rest ns Ha Hrest IH]; intros Hs.
  - exists []. repeat split; [constructor|constructor|auto].
  - inversion Hs as [|n' ns' Hs' Hall]; subst.
    destruct (IH Hs') as (ids' & Hn & Hs'' & Hin).
    cbn [filter]. destruct (keep a).
    + exists (n :: ids'). split; [constructor; assumption|]. split.
      * constructor; [exact Hs''|].
        rewrite Forall_forall in *. intros k Hk. apply Hall. apply Hin. exact Hk.
      * intros k [<-|Hk]; [left; reflexivity|right; apply Hin; exact Hk].
    + exists ids'. split; [exact Hn|]. split; [exact Hs''|].
      intros k Hk. right. apply Hin. exact Hk.
Qed.

Lemma maximum_bound x xs : Forall (fun k => k <= maximum x xs) (x :: xs).
Proof.
  revert x. induction xs as [|y ys IH]; intros x.
  - constructor; [cbn; lia|constructor].
  - cbn [maximum]. constructor; [lia|].
    specialize (IH y). rewrite Forall_forall in *. intros k Hk.
    specialize (IH k Hk). lia.
Qed.

Lemma allocate_id_spec_fresh ids : Forall (fun k => k < allocate_id_spec ids) ids.
Proof.
  destruct ids as [|x xs]; [constructor|].
  pose proof (maximum_bound x xs) as Hb. cbn [allocate_id_spec].
  rewrite Forall_forall in *. intros k Hk. specialize (Hb k Hk). lia.
Qed.

Lemma sorted_snoc ids m :
  StronglySorted Z.lt ids -> Forall (fun k => k < m) ids ->
  StronglySorted Z.lt (ids ++ [m]).
Proof.
  induction 1 as [|x xs Hs IH Hall]; intros Hm; cbn [app].
  - constructor; constructor.
  - inversion Hm as [|x' xs' Hx Hxs]; subst. constructor; [apply IH; exact Hxs|].
    apply Forall_app. split; [exact Hall|]. constructor; [exact Hx|constructor].
Qed.

Lemma sorted_NoDup ids : StronglySorted Z.lt ids -> NoDup ids.
Proof.
  induction 1 as [|x xs Hs IH Hall]; constructor; [|exact IH].
  intros Hin. rewrite Forall_forall in Hall. specialize (Hall x Hin). lia.
Qed.

(** In a file in increasing order the last line has the maximum id. *)
Lemma last_is_maximum rest : forall l n ns,
  Forall2 record_of (l :: rest) (n :: ns) ->
  StronglySorted Z.lt (n :: ns) ->
  py_int (last_first_field (l :: rest)) = Some (maximum n ns).
Proof.
  induction rest as [|l' rest' IH]; intros l n ns HF Hs.
  - inversion HF as [|? ? ? ? Hl Hrest]; subst. inversion Hrest; subst.
    destruct l as [|a [|nm [|p [|b [|t [|]]]]]]; try contradiction.
    destruct Hl as [Ha _]. exact Ha.
  - inversion HF as [|? ? ? ? Hl Hrest]; subst.
    inversion Hrest as [|? n' ? ns' Hl' Hrest']; subst.
    inversion Hs as [|? ? Hs' Hall]; subst.
    change (last_first_field (l :: l' :: rest'))
      with (last_first_field (l' :: rest')).
    rewrite (IH l' n' ns' Hrest Hs'). cbn [maximum]. f_equal.
    pose proof (maximum_bound n' ns') as Hb.
    inversion Hb as [|? ? Hn' _]; subst. inversion Hall as [|? ? Hlt _]; subst. lia.
Qed.

Lemma generate_account_number_ordered w ids :
  store_ids w ids -> StronglySorted Z.lt ids ->
  generate_account_number w = (Ok (allocate_id_spec ids), w).
Proof.
  intros HF Hs. rewrite generate_account_number_eq. unfold store_ids in HF.
  destruct (ACCOUNTS_FILE w) as [|l rest]; inversion HF as [|? n ? ns Hl Hrest]; subst.
  - reflexivity.
  - rewrite (last_is_maximum rest l n ns HF Hs). reflexivity.
Qed.

Lemma ordered_saved accs ids (saved : World) :
  float_roundtrip ->
  Forall2 numbered accs ids -> StronglySorted Z.lt ids ->
  ACCOUNTS_FILE saved = map save_line accs ->
  ordered saved.
Proof.
  intros Hf Hn Hs Hfile. exists ids. split; [|exact Hs].
  unfold store_ids. rewrite Hfile. apply saved_ids; assumption.
Qed.

Lemma main_menu_ordered c w :
  int_roundtrip -> float_roundtrip ->
  ordered w -> ordered (snd (main_menu c w)).
Proof.
  intros Hi Hf Ho.
  destruct c as [nm pw ty dep|a p| |]; unfold main_menu; rewrite bind_eq.
  - rewrite create_account_eq. destruct Ho as (ids & HF & Hs).
    rewrite (generate_account_number_ordered w ids HF Hs). cbn.
    exists (ids ++ [allocate_id_spec ids]). split.
    + unfold store_ids. cbn. apply Forall2_app; [exact HF|].
      constructor; [|constructor]. cbn. split; [apply Hi|].
      rewrite Hf. discriminate.
    + apply sorted_snoc; [exact Hs|apply allocate_id_spec_fresh].
  - destruct (login_cases a p w) as [[e ->]|[->|(n & b & t & x & _ & _ & ->)]];
      exact Ho.
  - exact Ho.
  - exact Ho.
Qed.

Lemma account_menu_ordered c w :
  float_roundtrip -> ordered w -> ordered (snd (account_menu c w)).
Proof.
  intros Hf Ho.
  assert (Hrec : exists ids accs,
            stored w = Ok accs /\ Forall2 numbered accs ids /\
            StronglySorted Z.lt ids).
  { destruct Ho as (ids & HF & Hs).
    destruct (records_of_ids _ _ HF) as (accs & Hr & Hn).
    exists ids, accs. rewrite stored_records. auto. }
  destruct Hrec as (ids & accs & Hst & Hn & Hs).
  destruct c as [amount|amount| |target_no amount|old_pwd new_pwd|confirm| |];
    unfold account_menu; rewrite bind_eq.
  - rewrite deposit_eq, Hst.
    destruct (logged_in_account w) as [me|]; [|exact Ho].
    cbv zeta. cbn.
    apply (ordered_saved
             (map (synced (set_balance me (balance me + amount))) accs) ids);
      [exact Hf| |exact Hs|reflexivity].
    apply numbered_map; [apply synced_account_no|exact Hn].
  - rewrite withdraw_eq, Hst.
    destruct (logged_in_account w) as [me|]; [|exact Ho].
    destruct (amount >? balance me); [exact Ho|].
    cbv zeta. cbn.
    apply (ordered_saved
             (map (synced (set_balance me (balance me - amount))) accs) ids);
      [exact Hf| |exact Hs|reflexivity].
    apply numbered_map; [apply synced_account_no|exact Hn].
  - unfold check_balance. rewrite bind_eq. unfold the_logged_in.
    destruct (logged_in_account w); exact Ho.
  - rewrite transfer_eq, Hst.
    destruct (find_target target_no accs) as [[i target]|] eqn:Hfind; [|exact Ho].
    destruct (logged_in_account w) as [me|]; [|exact Ho].
    destruct (amount >? balance me); [exact Ho|].
    cbn.
    apply (ordered_saved
             (mutated_at i (set_balance target (balance target + amount)) accs) ids);
      [exact Hf| |exact Hs|reflexivity].
    apply (numbered_mutated target_no accs ids i target); [exact Hfind|reflexivity|exact Hn].
  - rewrite change_password_eq, Hst.
    destruct (logged_in_account w) as [me|]; [|exact Ho].
    destruct (hash_password old_pwd =? password me)%string; [|exact Ho].
    cbv zeta. cbn.
    apply (ordered_saved
             (map (repassworded (set_password me (hash_password new_pwd))) accs) ids);
      [exact Hf| |exact Hs|reflexivity].
    apply numbered_map; [|exact Hn].
    intros a. unfold repassworded.
    destruct (account_no a =? _)%string; reflexivity.
  - rewrite close_account_eq, Hst.
    destruct confirm; [|exact Ho].
    destruct (logged_in_account w) as [me|].
    + destruct (numbered_filter (others me) accs ids Hn Hs) as (ids' & Hn' & Hs' & _).
      cbn. apply (ordered_saved (filter (others me) accs) ids');
        [exact Hf|exact Hn'|exact Hs'|reflexivity].
    + destruct accs; [|exact Ho]. cbn. exists []. split; constructor.
  - exact Ho.
  - exact Ho.
Qed.

Lemma turn_ordered c m w m' w' :
  int_roundtrip -> float_roundtrip ->
  turn c (m, w) = Some (m', w') -> ordered w -> ordered w'.
Proof.
  intros Hi Hf Ht Ho.
  destruct c as [c|c], m; cbn in Ht; try discriminate.
  - pose proof (main_menu_ordered c w Hi Hf Ho) as Ho'.
    destruct (main_menu c w) as [[r|e] w1]; injection Ht as <- <-; exact Ho'.
  - pose proof (account_menu_ordered c w Hf Ho) as Ho'.
    destruct (account_menu c w) as [[r|e] w1]; injection Ht as <- <-; exact Ho'.
Qed.

Lemma reachable_ordered m w :
  int_roundtrip -> float_roundtrip -> reachable (m, w) -> ordered w.
Proof.
  intros Hi Hf [cs Hrun].
  apply (run_preserves (fun _ => True) (fun c => ordered (snd c))) with (cs := cs)
    (cfg := (MainMenu, init)) (cfg' := (m, w)).
  - intros c [m0 w0] [m1 w1] _ Ht Ho.
    apply (turn_ordered c m0 w0 m1 w1 Hi Hf Ht Ho).
  - apply Forall_any.
  - exact Hrun.
  - exists []. split; constructor.
Qed.

(** *** Reachable worlds raise no exception *)







Lemma ids_distinct_text ls ids :
  Forall2 record_of ls ids -> NoDup ids -> NoDup (map line_account_no ls).
Proof.
  induction 1 as [|l n rest ns Hl Hrest IH]; intros Hnd; cbn [map].
  - constructor.
  - inversion Hnd as [|? ? Hn Hns]; subst. constructor; [|apply IH; exact Hns].
    intros Hin. apply Hn. clear IH Hnd Hn Hns.
    destruct l as [|a [|nm [|p [|b [|t [|]]]]]]; try contradiction.
    destruct Hl as [Ha _]. cbn in Hin.
    induction Hrest as [|l' n' rest' ns' Hl' Hrest' IH]; [destruct Hin|].
    destruct Hin as [Heq|Hin]; [left|right; apply IH; exact Hin].
    destruct l' as [|a' [|nm' [|p' [|b' [|t' [|]]]]]]; try contradiction.
    destruct Hl' as [Ha' _]. cbn in Heq. subst a'. congruence.
Qed.

Lemma ordered_five_fields w : ordered w -> Forall five_fields (ACCOUNTS_FILE w).
Proof.
  intros (ids & HF & _). unfold store_ids in HF.
  induction HF as [|l n rest ns Hl Hrest IH]; constructor; [|exact IH].
  destruct l as [|a [|nm [|p [|b [|t [|]]]]]]; try contradiction. exact I.
Qed.

(** Every world reached from [init] has a store whose lines all unpack
    and whose account numbers are pairwise distinct. *)
Lemma reachable_store_well_formed m w :
  int_roundtrip -> float_roundtrip -> reachable (m, w) ->
  Forall five_fields (ACCOUNTS_FILE w) /\
  NoDup (map line_account_no (ACCOUNTS_FILE w)).
Proof.
  intros Hi Hf Hr. pose proof (reachable_ordered m w Hi Hf Hr) as Ho.
  split; [apply ordered_five_fields; exact Ho|].
  destruct Ho as (ids & HF & Hs).
  apply (ids_distinct_text _ ids HF). apply sorted_NoDup. exact Hs.
Qed.

(** In a store whose lines all unpack and whose account numbers are
    distinct, the digest in the record of an account decides [login]. *)
Lemma login_decided_by_secret (w : World) (a n secret b t : string) (x : Z) :
  digest_injective ->
  Forall five_fields (ACCOUNTS_FILE w) ->
  NoDup (map line_account_no (ACCOUNTS_FILE w)) ->
  In [a; n; hash_password secret; b; t] (ACCOUNTS_FILE w) ->
  py_float b = Some x ->
  login a secret w =
    (Ok true, with_message (Welcome n)
                (with_session (Some (mkAccount a n (hash_password secret) x t)) w)) /\
  (forall wrong, wrong <> secret ->
     login a wrong w = (Ok false, with_message InvalidLogin w) /\
     logged_in_account (snd (login a wrong w)) = logged_in_account w /\
     main_menu (Main2 a wrong) w = (Ok MainMenu, with_message InvalidLogin w)) /\
  (forall p, fst (login a p w) = Ok true <-> p = secret).
Proof.
  intros Hinj Hff Hnd Hin Hx.
  assert (Hgood : login a secret w =
    (Ok true, with_message (Welcome n)
                (with_session (Some (mkAccount a n (hash_password secret) x t)) w))).
  { rewrite login_eq. apply login_scan_match with (b := b); assumption. }
  assert (Hbad : forall wrong, wrong <> secret ->
    login a wrong w = (Ok false, with_message InvalidLogin w)).
  { intros wrong Hw. rewrite login_eq. apply login_scan_no_match; [exact Hff|].
    intros n' b' t' Hin'.
    assert (Heq : [a; n'; hash_password wrong; b'; t'] =
                  [a; n; hash_password secret; b; t]).
    { clear Hgood Hff Hx. revert Hnd Hin Hin'.
      generalize (ACCOUNTS_FILE w). intros ls.
      induction ls as [|l rest IH]; intros Hnd Hin Hin'; [destruct Hin|].
      cbn [map] in Hnd. inversion Hnd as [|k ks Hk Hks]; subst.
      destruct Hin as [->|Hin], Hin' as [Heq|Hin'].
      - symmetry. exact Heq.
      - exfalso. apply Hk.
        apply (in_map line_account_no) in Hin'. exact Hin'.
      - subst l. exfalso. apply Hk.
        apply (in_map line_account_no) in Hin. exact Hin.
      - apply IH; assumption. }
    injection Heq as _ Hh _ _. apply Hw. apply Hinj. exact Hh. }
  split; [exact Hgood|]. split.
  - intros wrong Hw. split; [apply Hbad; exact Hw|].
    split.
    + rewrite (Hbad wrong Hw). reflexivity.
    + unfold main_menu. rewrite bind_eq, (Hbad wrong Hw). reflexivity.
  - intros p. split.
    + intros Hp. destruct (string_dec p secret) as [|Hne]; [assumption|].
      rewrite (Hbad p Hne) in Hp. discriminate.
    + intros ->. rewrite Hgood. reflexivity.
Qed.

(** ** Properties of the ledger *)

(** C1 (what the code does).  After a successful transfer to another
    account the logged-in object is debited and the target object is
    credited, so the sum over the two objects in memory is unchanged; but
    the store read back holds the sender's record with its balance of
    before the transfer and the target's record credited, so the sum over
    the two stored records has grown by the amount. *)
Theorem transfer_store_sum (w : World) (me : Account) (accounts : list Account)
    (target_no : string) (i j : nat) (target mine : Account) (amount : Z) :
  float_roundtrip ->
  logged_in_account w = Some me ->
  get_all_accounts w = (Ok accounts, w) ->
  find_target target_no accounts = Some (i, target) ->
  find_target (account_no me) accounts = Some (j, mine) ->
  account_no me <> target_no ->
  amount <= balance me ->
  let w' := snd (transfer target_no amount w) in
  transfer target_no amount w = (Ok tt, w') /\
  (exists me',
     logged_in_account w' = Some me' /\
     fst (Account_transfer me target amount w) =
       Ok (true, me', set_balance target (balance target + amount)) /\
     balance me' + (balance target + amount) = balance me + balance target) /\
  exists accounts' mine' target',
    get_all_accounts w' = (Ok accounts', w') /\
    find_target (account_no me) accounts' = Some (j, mine') /\
    find_target target_no accounts' = Some (i, target') /\
    balance mine' = balance mine /\
    balance target' = balance target + amount /\
    balance mine' + balance target' = balance mine + balance target + amount.
Proof.
  intros Hf Hme Hs Hfind Hmine Hne Hle w'.
  rewrite get_all_accounts_eq in Hs. injection Hs as Hs.
  subst w'. rewrite (transfer_succeeds _ _ w me accounts i target Hme Hs Hfind Hle).
  cbn [snd]. split; [reflexivity|]. split.
  - exists (set_balance me (balance me - amount)). split; [reflexivity|].
    rewrite Account_transfer_eq, (not_greater _ _ Hle). cbn. split; [reflexivity|lia].
  - exists (mutated_at i (set_balance target (balance target + amount)) accounts),
      mine, (set_balance target (balance target + amount)).
    split; [|split; [|split]].
    + rewrite get_all_accounts_eq. f_equal. rewrite stored_records. cbn.
      apply records_of_saved. exact Hf.
    + rewrite (find_target_mutated_other (account_no me) target_no accounts i target);
        [exact Hmine|exact Hfind| |exact Hne].
      cbn. apply (find_target_account_no _ _ _ _ Hfind).
    + apply find_target_mutated_same with (a := target); [exact Hfind|].
      cbn. apply (find_target_account_no _ _ _ _ Hfind).
    + cbn. repeat split; lia.
Qed.






(** C7.  Writing back the record set just read is a no-op for the next
    read: if a read of the store returns [accounts], then after
    [save_accounts accounts] a read returns [accounts] again, field for
    field, and nothing but [accounts.txt] is touched. *)
Theorem write_back_read_again (w : World) (accounts : list Account) :
  float_roundtrip ->
  get_all_accounts w = (Ok accounts, w) ->
  let w' := snd (save_accounts accounts w) in
  save_accounts accounts w = (Ok tt, w') /\
  get_all_accounts w' = (Ok accounts, w') /\
  TRANSACTIONS_FILE w' = TRANSACTIONS_FILE w /\
  logged_in_account w' = logged_in_account w /\
  printed w' = printed w.
Proof.
  intros Hf _ w'. split; [reflexivity|]. split; [|repeat split].
  rewrite get_all_accounts_eq. f_equal.
  rewrite stored_records. subst w'. cbn.
  apply records_of_saved. exact Hf.
Qed.



(** C10.  A transfer to one's own account is not rejected.  With the id of
    the logged-in account as target and an amount not greater than the
    session balance, [transfer] succeeds and logs two rows; the record of
    the account in the store ends with its stored balance plus the amount,
    the logged-in object with its balance minus the amount. *)
Theorem self_transfer (w : World) (me : Account) (accounts : list Account)
    (i : nat) (mine : Account) (amount : Z) :
  float_roundtrip ->
  logged_in_account w = Some me ->
  get_all_accounts w = (Ok accounts, w) ->
  find_target (account_no me) accounts = Some (i, mine) ->
  amount <= balance me ->
  let w' := snd (transfer (account_no me) amount w) in
  transfer (account_no me) amount w = (Ok tt, w') /\
  printed w' = printed w ++ [TransferSuccessful] /\
  TRANSACTIONS_FILE w' =
    TRANSACTIONS_FILE w ++
    [txn_row (account_no me) "Transfer" amount (Some (account_no me));
     txn_row (account_no me) "Received" amount (Some (account_no me))] /\
  logged_in_account w' = Some (set_balance me (balance me - amount)) /\
  exists accounts',
    get_all_accounts w' = (Ok accounts', w') /\
    find_target (account_no me) accounts' =
      Some (i, set_balance mine (balance mine + amount)) /\
    (balance mine = balance me ->
     forall i' mine', find_target (account_no me) accounts' = Some (i', mine') ->
                      balance mine' = balance me + amount).
Proof.
  intros Hf Hme Hs Hfind Hle w'.
  rewrite get_all_accounts_eq in Hs. injection Hs as Hs.
  subst w'. rewrite (transfer_succeeds _ _ w me accounts i mine Hme Hs Hfind Hle).
  cbn [snd]. repeat split.
  exists (mutated_at i (set_balance mine (balance mine + amount)) accounts).
  assert (Hfound : find_target (account_no me)
            (mutated_at i (set_balance mine (balance mine + amount)) accounts) =
          Some (i, set_balance mine (balance mine + amount))).
  { apply find_target_mutated_same with (a := mine); [exact Hfind|].
    cbn. apply (find_target_account_no _ _ _ _ Hfind). }
  split; [|split].
  - rewrite get_all_accounts_eq. f_equal. rewrite stored_records. cbn.
    apply records_of_saved. exact Hf.
  - exact Hfound.
  - intros Hsync i' mine' Hf'. rewrite Hfound in Hf'. injection Hf' as <- <-.
    cbn. lia.
Qed.

(** ** Further properties *)

(** *** What [save_accounts] writes *)

Lemma saved_five_fields accs : Forall five_fields (map save_line accs).
Proof.
  apply Forall_forall. intros l Hin. apply in_map_iff in Hin.
  destruct Hin as (a & <- & _). exact I.
Qed.

Lemma saved_account_nos accs :
  map line_account_no (map save_line accs) = map account_no accs.
Proof. rewrite map_map. reflexivity. Qed.

Lemma records_of_member ls accs a n h b t x :
  records_of ls = Ok accs -> In [a; n; h; b; t] ls -> py_float b = Some x ->
  In (mkAccount a n h x t) accs.
Proof.
  revert accs. induction ls as [|l rest IH]; intros accs Hr Hin Hx; [destruct Hin|].
  destruct (blank l) eqn:Hb.
  - rewrite records_of_blank in Hr by exact Hb.
    destruct Hin as [->|Hin]; [rewrite blank_fields in Hb; discriminate|].
    apply IH; assumption.
  - destruct l as [|f1 [|f2 [|f3 [|f4 [|f5 [|]]]]]];
      try (rewrite records_of_other in Hr by (auto; intros []); discriminate).
    rewrite records_of_record in Hr.
    destruct (py_float f4) as [y|] eqn:Hy; [|discriminate].
    destruct (records_of rest) as [accs'|] eqn:Hrest; [|discriminate].
    injection Hr as <-. destruct Hin as [Heq|Hin].
    + injection Heq as -> -> -> -> ->. rewrite Hx in Hy. injection Hy as <-.
      left. reflexivity.
    + right. apply IH; [reflexivity|exact Hin|exact Hx].
Qed.


Lemma stored_saved accs w :
  float_roundtrip -> stored (with_accounts (map save_line accs) w) = Ok accs.
Proof. intros Hf. rewrite stored_records. cbn. apply records_of_saved. exact Hf. Qed.

(** X1.  A password change with the right old password: the logged-in
    object and every record of the account in the store get the digest of
    the new password, no balance and no account number changes, nothing is
    logged, and from then on [login] with the account's number returns
    [True] for the new password and for no other. *)
Theorem change_password_then_login (w : World) (me : Account)
    (accounts : list Account) (old_pwd new_pwd : string) :
  digest_injective ->
  float_roundtrip ->
  logged_in_account w = Some me ->
  get_all_accounts w = (Ok accounts, w) ->
  NoDup (map account_no accounts) ->
  In (account_no me) (map account_no accounts) ->
  hash_password old_pwd = password me ->
  let w' := snd (change_password old_pwd new_pwd w) in
  change_password old_pwd new_pwd w = (Ok tt, w') /\
  printed w' = printed w ++ [PasswordChanged] /\
  TRANSACTIONS_FILE w' = TRANSACTIONS_FILE w /\
  logged_in_account w' = Some (set_password me (hash_password new_pwd)) /\
  (exists accounts',
     get_all_accounts w' = (Ok accounts', w') /\
     map account_no accounts' = map account_no accounts /\
     map balance accounts' = map balance accounts /\
     (forall a, In a accounts' -> account_no a = account_no me ->
                password a = hash_password new_pwd) /\
     (forall a, In a accounts -> account_no a <> account_no me -> In a accounts')) /\
  (forall p, fst (login (account_no me) p w') = Ok true <-> p = new_pwd).
Proof.
  intros Hinj Hf Hme Hs Hnd Hin Hold w'.
  rewrite get_all_accounts_eq in Hs. injection Hs as Hs.
  assert (E : change_password old_pwd new_pwd w =
    (Ok tt, with_message PasswordChanged
       (with_accounts
          (map save_line
             (map (repassworded (set_password me (hash_password new_pwd))) accounts))
          (with_session (Some (set_password me (hash_password new_pwd))) w)))).
  { rewrite change_password_eq, Hme, Hold, String.eqb_refl. cbv zeta.
    rewrite Hs. reflexivity. }
  subst w'. rewrite E. cbn [snd].
  set (me' := set_password me (hash_password new_pwd)).
  split; [reflexivity|]. split; [reflexivity|]. split; [reflexivity|].
  split; [reflexivity|]. split.
  - exists (map (repassworded me') accounts). split; [|split; [|split; [|split]]].
    + rewrite get_all_accounts_eq. f_equal.
      rewrite stored_records. cbn. apply records_of_saved. exact Hf.
    + rewrite map_map. apply map_ext. intros a. unfold repassworded.
      destruct (account_no a =? account_no me')%string; reflexivity.
    + rewrite map_map. apply map_ext. intros a. unfold repassworded.
      destruct (account_no a =? account_no me')%string; reflexivity.
    + intros a Ha Hno. apply in_map_iff in Ha. destruct Ha as (a0 & <- & _).
      unfold repassworded in *.
      destruct (account_no a0 =? account_no me')%string eqn:E0; [reflexivity|].
      apply String.eqb_neq in E0. contradiction.
    + intros a Ha Hno. apply in_map_iff. exists a. split; [|exact Ha].
      unfold repassworded.
      destruct (account_no a =? account_no me')%string eqn:E0; [|reflexivity].
      apply String.eqb_eq in E0. contradiction.
  - apply in_map_iff in Hin. destruct Hin as (a0 & Hno & Ha0).
    apply (login_decided_by_secret _ (account_no me) (name a0) new_pwd
             (str_float (balance a0)) (acc_type a0) (balance a0) Hinj).
    + cbn. apply saved_five_fields.
    + cbn. rewrite saved_account_nos, map_map.
      erewrite map_ext; [exact Hnd|].
      intros a. unfold repassworded.
      destruct (account_no a =? account_no me')%string; reflexivity.
    + cbn. apply in_map_iff. exists (repassworded me' a0). split.
      * unfold repassworded, save_line. cbn [account_no me' set_password].
        rewrite Hno, String.eqb_refl. cbn. rewrite Hno. reflexivity.
      * apply in_map. exact Ha0.
    + apply Hf.
Qed.


(** X2.  Closing the account (choice 6, confirmed): the records with the
    number of the logged-in account are gone from the store, all others
    stay in their order, nobody is logged in, nothing is logged, the main
    menu is next, and [login] with the closed number fails for every
    password.  Not confirmed, the choice changes nothing and still leaves
    the account menu. *)
Theorem close_account_removes_record (w : World) (me : Account)
    (accounts : list Account) :
  float_roundtrip ->
  logged_in_account w = Some me ->
  get_all_accounts w = (Ok accounts, w) ->
  let w' := snd (account_menu (Acct6 true) w) in
  let kept := filter (fun a => negb (account_no a =? account_no me)%string) accounts in
  account_menu (Acct6 true) w = (Ok MainMenu, w') /\
  logged_in_account w' = None /\
  TRANSACTIONS_FILE w' = TRANSACTIONS_FILE w /\
  printed w' = printed w ++ [AccountClosed] /\
  get_all_accounts w' = (Ok kept, w') /\
  (forall a, In a kept <-> In a accounts /\ account_no a <> account_no me) /\
  (forall p, login (account_no me) p w' = (Ok false, with_message InvalidLogin w')) /\
  account_menu (Acct6 false) w = (Ok MainMenu, w).
Proof.
  intros Hf Hme Hs w' kept.
  rewrite get_all_accounts_eq in Hs. injection Hs as Hs.
  assert (E : account_menu (Acct6 true) w =
    (Ok MainMenu,
     with_session None
       (with_message AccountClosed (with_accounts (map save_line kept) w)))).
  { unfold account_menu. rewrite bind_eq, close_account_eq, Hs, Hme. reflexivity. }
  subst w'. rewrite E. cbn [snd].
  split; [reflexivity|]. split; [reflexivity|]. split; [reflexivity|].
  split; [reflexivity|]. split; [|split; [|split]].
  - rewrite get_all_accounts_eq. f_equal. rewrite stored_records. cbn.
    apply records_of_saved. exact Hf.
  - intros a. subst kept. rewrite filter_In. split.
    + intros [Ha Hno]. split; [exact Ha|].
      apply negb_true_iff in Hno. apply String.eqb_neq in Hno. exact Hno.
    + intros [Ha Hno]. split; [exact Ha|].
      apply negb_true_iff. apply String.eqb_neq. exact Hno.
  - intros p. rewrite login_eq. apply login_scan_no_match.
    + cbn. apply saved_five_fields.
    + intros n b t Hin. cbn in Hin. apply in_map_iff in Hin.
      destruct Hin as (a & Heq & Ha). injection Heq as Hno _ _ _ _.
      subst kept. apply filter_In in Ha. destruct Ha as [_ Hk].
      rewrite Hno, String.eqb_refl in Hk. discriminate.
  - reflexivity.
Qed.

(** *** The log only grows *)

Lemma main_menu_log c w :
  TRANSACTIONS_FILE (snd (main_menu c w)) = TRANSACTIONS_FILE w.
Proof.
  destruct c as [nm pw ty dep|a p| |]; unfold main_menu; rewrite bind_eq.
  - rewrite create_account_eq.
    destruct (fst (generate_account_number w)); reflexivity.
  - destruct (login_cases a p w) as [[e ->]|[->|(n & b & t & x & _ & _ & ->)]];
      reflexivity.
  - reflexivity.
  - reflexivity.
Qed.

Lemma account_menu_log c w :
  exists rows,
    TRANSACTIONS_FILE (snd (account_menu c w)) = TRANSACTIONS_FILE w ++ rows /\
    (List.length rows <= 2)%nat.
Proof.
  assert (Hnone : forall w', TRANSACTIONS_FILE w' = TRANSACTIONS_FILE w ->
            exists rows, TRANSACTIONS_FILE w' = TRANSACTIONS_FILE w ++ rows /\
                         (List.length rows <= 2)%nat).
  { intros w' E. exists []. rewrite app_nil_r. split; [exact E|cbn; lia]. }
  destruct c as [amount|amount| |target_no amount|old_pwd new_pwd|confirm| |];
    unfold account_menu; rewrite bind_eq.
  - rewrite deposit_eq.
    destruct (logged_in_account w) as [me|]; [|apply Hnone; reflexivity].
    cbv zeta. exists [txn_row (account_no me) "Deposit" amount None].
    destruct (stored w); split; try reflexivity; cbn; lia.
  - rewrite withdraw_eq.
    destruct (logged_in_account w) as [me|]; [|apply Hnone; reflexivity].
    destruct (amount >? balance me); [apply Hnone; reflexivity|].
    cbv zeta. exists [txn_row (account_no me) "Withdrawal" amount None].
    destruct (stored w); split; try reflexivity; cbn; lia.
  - unfold check_balance. rewrite bind_eq. unfold the_logged_in.
    destruct (logged_in_account w); apply Hnone; reflexivity.
  - rewrite transfer_eq.
    destruct (stored w) as [accounts|e]; [|apply Hnone; reflexivity].
    destruct (find_target target_no accounts) as [[i target]|];
      [|apply Hnone; reflexivity].
    destruct (logged_in_account w) as [me|]; [|apply Hnone; reflexivity].
    destruct (amount >? balance me); [apply Hnone; reflexivity|].
    eexists. split; [reflexivity|cbn; lia].
  - rewrite change_password_eq.
    destruct (logged_in_account w) as [me|]; [|apply Hnone; reflexivity].
    destruct (hash_password old_pwd =? password me)%string;
      [|apply Hnone; reflexivity].
    cbv zeta. destruct (stored w); apply Hnone; reflexivity.
  - rewrite close_account_eq.
    destruct confirm; [|apply Hnone; reflexivity].
    destruct (stored w) as [accs|e]; [|apply Hnone; reflexivity].
    destruct (logged_in_account w); [apply Hnone; reflexivity|].
    destruct accs; apply Hnone; reflexivity.
  - apply Hnone; reflexivity.
  - apply Hnone; reflexivity.
Qed.

Lemma turn_log c cfg cfg' :
  turn c cfg = Some cfg' ->
  exists rows,
    TRANSACTIONS_FILE (snd cfg') = TRANSACTIONS_FILE (snd cfg) ++ rows /\
    (List.length rows <= 2)%nat.
Proof.
  destruct cfg as [m w]. intros Ht.
  destruct c as [c|c], m; cbn in Ht; try discriminate; injection Ht as <-.
  - exists []. rewrite app_nil_r. split; [|cbn; lia].
    pose proof (main_menu_log c w) as E.
    destruct (main_menu c w) as [[r|e] w1]; exact E.
  - destruct (account_menu_log c w) as (rows & E & Hlen). exists rows.
    split; [|exact Hlen].
    destruct (account_menu c w) as [[r|e] w1]; exact E.
Qed.

(** X3.  [transactions.txt] is only appended to: after any run the rows
    that were there are still there, in front, and a turn adds two rows at
    most. *)
Theorem transaction_log_only_grows (cs : list choice) (cfg cfg' : menu * World) :
  run cs cfg = Some cfg' ->
  exists rows,
    TRANSACTIONS_FILE (snd cfg') = TRANSACTIONS_FILE (snd cfg) ++ rows /\
    (List.length rows <= 2 * List.length cs)%nat.
Proof.
  revert cfg. induction cs as [|c rest IH]; intros cfg Hrun.
  - injection Hrun as <-. exists []. rewrite app_nil_r. split; [reflexivity|cbn; lia].
  - cbn [run] in Hrun. destruct (turn c cfg) as [cfg1|] eqn:Ht; [|discriminate].
    destruct (turn_log c cfg cfg1 Ht) as (rows1 & E1 & L1).
    destruct (IH cfg1 Hrun) as (rows & E & L).
    exists (rows1 ++ rows). split.
    + rewrite E, E1, app_assoc. reflexivity.
    + rewrite length_app. cbn [List.length]. lia.
Qed.

(** X5.  The account menu is entered from the main menu only by a
    login that found a line with the number typed and the digest of the
    password typed; the object logged in is built from this line, and it
    is one of the accounts a read of the store returns. *)
Theorem account_menu_entered_by_login (c : choice) (w w' : World) :
  turn c (MainMenu, w) = Some (AccountMenu, w') ->
  exists a p n b t x,
    c = AtMain (Main2 a p) /\
    In [a; n; hash_password p; b; t] (ACCOUNTS_FILE w) /\
    py_float b = Some x /\
    w' = with_message (Welcome n)
           (with_session (Some (mkAccount a n (hash_password p) x t)) w) /\
    forall accounts, get_all_accounts w = (Ok accounts, w) ->
                     In (mkAccount a n (hash_password p) x t) accounts.
Proof.
  intros Ht. destruct c as [c|c]; cbn in Ht; [|discriminate].
  destruct c as [nm pw ty dep|a p| |]; unfold main_menu in Ht;
    rewrite bind_eq in Ht.
  - rewrite create_account_eq in Ht.
    destruct (fst (generate_account_number w)); discriminate.
  - destruct (login_cases a p w) as [[e E]|[E|(n & b & t & x & Hin & Hx & E)]];
      rewrite E in Ht; try discriminate.
    injection Ht as <-. exists a, p, n, b, t, x.
    split; [reflexivity|]. split; [exact Hin|]. split; [exact Hx|].
    split; [reflexivity|].
    intros accounts Hs. rewrite get_all_accounts_eq in Hs. injection Hs as Hs.
    rewrite stored_records in Hs.
    apply (records_of_member _ _ _ _ _ _ _ _ Hs Hin Hx).
  - discriminate.
  - discriminate.
Qed.


(** *** Which files can be read *)

Lemma records_of_cases ls :
  (Forall readable ls /\
   exists accs, records_of ls = Ok accs /\
                List.length accs =
                List.length (filter (fun l => negb (blank l)) ls)) \/
  (~ Forall readable ls /\ records_of ls = Raise ValueError).
Proof.
  induction ls as [|l rest IH].
  - left. split; [constructor|]. exists []. split; reflexivity.
  - destruct (blank l) eqn:Hb.
    + rewrite records_of_blank by exact Hb. cbn [filter]. rewrite Hb. cbn [negb].
      destruct IH as [(Hall & accs & Hr & Hlen)|(Hnot & Hr)].
      * left. split; [constructor; [left; exact Hb|exact Hall]|].
        exists accs. split; assumption.
      * right. split; [|exact Hr]. intros Hall. apply Hnot.
        inversion Hall; assumption.
    + cbn [filter]. rewrite Hb. cbn [negb].
      destruct l as [|f1 [|f2 [|f3 [|f4 [|f5 [|]]]]]];
        try (right; split;
             [intros Hall; inversion Hall as [|? ? [Hl|[Hl _]] _]; subst;
              [rewrite Hb in Hl; discriminate|exact Hl]
             |apply records_of_other; [exact Hb|intros []]]).
      rewrite records_of_record.
      destruct (py_float f4) as [x|] eqn:Hx.
      * destruct IH as [(Hall & accs & Hr & Hlen)|(Hnot & Hr)].
        -- left. split.
           ++ constructor; [|exact Hall]. right. split; [exact I|].
              cbn. rewrite Hx. discriminate.
           ++ rewrite Hr. eexists. split; [reflexivity|]. cbn [List.length].
              rewrite Hlen. reflexivity.
        -- right. split; [|rewrite Hr; reflexivity]. intros Hall. apply Hnot.
           inversion Hall; assumption.
      * right. split; [|reflexivity].
        intros Hall. inversion Hall as [|? ? [Hl|[_ Hl]] _]; subst.
        -- rewrite Hb in Hl. discriminate.
        -- apply Hl. cbn. exact Hx.
Qed.

(** X6.  [get_all_accounts] never changes the world.  It returns a list
    exactly when every line is white space only or has five fields with a
    balance [float] reads; the list then has one account for each line
    that is not white space only.  Otherwise it raises [ValueError]. *)
Theorem read_succeeds_iff_lines_readable (w : World) :
  snd (get_all_accounts w) = w /\
  ((exists accounts, fst (get_all_accounts w) = Ok accounts) <->
   Forall readable (ACCOUNTS_FILE w)) /\
  (forall accounts,
     fst (get_all_accounts w) = Ok accounts ->
     List.length accounts =
     List.length (filter (fun l => negb (blank l)) (ACCOUNTS_FILE w))) /\
  (forall e, fst (get_all_accounts w) = Raise e -> e = ValueError).
Proof.
  rewrite get_all_accounts_eq. cbn [fst snd]. rewrite stored_records.
  split; [reflexivity|].
  destruct (records_of_cases (ACCOUNTS_FILE w))
    as [(Hall & accs & Hr & Hlen)|(Hnot & Hr)]; rewrite Hr.
  - split; [|split].
    + split; [intros _; exact Hall|intros _; exists accs; reflexivity].
    + intros accounts [= <-]. exact Hlen.
    + intros e [=].
  - split; [|split].
    + split; [intros [accounts [=]]|intros Hall; contradiction].
    + intros accounts [=].
    + intros e [= <-]. reflexivity.
Qed.

(** *** The scan of [login] *)

Lemma login_scan_skips a h pre rest w :
  Forall five_fields pre ->
  (forall n b t, ~ In [a; n; h; b; t] pre) ->
  login_scan a h (pre ++ rest) w = login_scan a h rest w.
Proof.
  induction pre as [|l pre' IH]; intros Hff Hno; [reflexivity|].
  inversion Hff as [|l' rest' Hl Hrest]; subst.
  destruct l as [|f1 [|f2 [|f3 [|f4 [|f5 [|]]]]]]; try contradiction.
  cbn [app login_scan].
  destruct ((f1 =? a)%string && (f3 =? h)%string)%bool eqn:E.
  - apply andb_prop in E. destruct E as [E1 E3].
    apply String.eqb_eq in E1, E3. subst f1 f3.
    exfalso. apply (Hno f2 f4 f5). left. reflexivity.
  - apply IH; [exact Hrest|]. intros n b t Hin. apply (Hno n b t). right. exact Hin.
Qed.

(** X7.  [login] stops at the first line that carries the number and the
    digest: whatever follows this line in the file, malformed lines
    included, is never looked at. *)
Theorem login_stops_at_first_match (w : World) (pre post : list line)
    (a n p b t : string) (x : Z) :
  ACCOUNTS_FILE w = pre ++ [a; n; hash_password p; b; t] :: post ->
  Forall five_fields pre ->
  (forall n' b' t', ~ In [a; n'; hash_password p; b'; t'] pre) ->
  py_float b = Some x ->
  login a p w =
    (Ok true, with_message (Welcome n)
                (with_session (Some (mkAccount a n (hash_password p) x t)) w)).
Proof.
  intros Hfile Hff Hno Hx. rewrite login_eq, Hfile.
  rewrite (login_scan_skips _ _ pre _ w Hff Hno).
  cbn [login_scan]. rewrite !String.eqb_refl. cbn [andb].
  rewrite bind_eq. unfold Account_init. rewrite Hx. reflexivity.
Qed.

Lemma records_of_skip_blank pre l post :
  blank l = true -> records_of (pre ++ l :: post) = records_of (pre ++ post).
Proof.
  intros Hb. induction pre as [|k pre' IH]; cbn [app].
  - apply records_of_blank. exact Hb.
  - destruct (blank k) eqn:Hk.
    + rewrite !records_of_blank by exact Hk. exact IH.
    + destruct k as [|f1 [|f2 [|f3 [|f4 [|f5 [|]]]]]];
        try (rewrite !records_of_other by (auto; intros []); reflexivity).
      rewrite !records_of_record, IH. reflexivity.
Qed.

(** X8.  [login] unpacks every line before the match: a line that has not
    five fields, a blank line included, in front of the matching record
    makes [login] raise [ValueError], with nothing changed, while
    [get_all_accounts] reads a file with a blank line as it reads the file
    without it. *)
Theorem login_raises_on_malformed_line (w : World) (pre post : list line)
    (l : line) (a p : string) :
  ACCOUNTS_FILE w = pre ++ l :: post ->
  Forall five_fields pre ->
  (forall n b t, ~ In [a; n; hash_password p; b; t] pre) ->
  ~ five_fields l ->
  login a p w = (Raise ValueError, w) /\
  (blank l = true ->
   fst (get_all_accounts w) =
   fst (get_all_accounts (with_accounts (pre ++ post) w))).
Proof.
  intros Hfile Hff Hno Hl. split.
  - rewrite login_eq, Hfile. rewrite (login_scan_skips _ _ pre _ w Hff Hno).
    destruct l as [|f1 [|f2 [|f3 [|f4 [|f5 [|]]]]]]; try reflexivity.
    exfalso. apply Hl. exact I.
  - intros Hb. rewrite !get_all_accounts_eq. cbn [fst].
    rewrite !stored_records, Hfile. cbn. apply records_of_skip_blank. exact Hb.
Qed.


(** *** Deposits *)

Lemma synced_pairs me accs :
  Forall2 (fun a a' =>
             account_no a' = account_no a /\ name a' = name a /\
             password a' = password a /\ acc_type a' = acc_type a /\
             balance a' = if (account_no a =? account_no me)%string
                          then balance me else balance a)
          accs (map (synced me) accs).
Proof.
  induction accs as [|a rest IH]; cbn [map]; constructor; [|exact IH].
  unfold synced. destruct (account_no a =? account_no me)%string; repeat split.
Qed.

(** X9.  A deposit, of any amount, on a store that can be read: one
    Deposit row is logged, the session balance grows by the amount, and a
    fresh read returns the same records with the same number, name,
    digest and type, the balance replaced by the new session balance in
    the records of the logged-in account and untouched in all others. *)
Theorem deposit_changes_own_balance_only (w : World) (me : Account)
    (accounts : list Account) (amount : Z) :
  float_roundtrip ->
  logged_in_account w = Some me ->
  get_all_accounts w = (Ok accounts, w) ->
  let w' := snd (deposit amount w) in
  deposit amount w = (Ok tt, w') /\
  printed w' = printed w ++ [DepositSuccessful] /\
  TRANSACTIONS_FILE w' =
    TRANSACTIONS_FILE w ++ [mkTxn (account_no me) "Deposit" amount] /\
  logged_in_account w' = Some (set_balance me (balance me + amount)) /\
  exists accounts',
    get_all_accounts w' = (Ok accounts', w') /\
    Forall2 (fun a a' =>
               account_no a' = account_no a /\ name a' = name a /\
               password a' = password a /\ acc_type a' = acc_type a /\
               balance a' = if (account_no a =? account_no me)%string
                            then balance me + amount else balance a)
            accounts accounts'.
Proof.
  intros Hf Hme Hs w'. rewrite get_all_accounts_eq in Hs. injection Hs as Hs.
  subst w'. rewrite deposit_eq, Hme. cbv zeta. rewrite Hs. cbn [snd].
  split; [reflexivity|]. split; [reflexivity|]. split; [reflexivity|].
  split; [reflexivity|].
  exists (map (synced (set_balance me (balance me + amount))) accounts). split.
  - rewrite get_all_accounts_eq. f_equal. rewrite stored_records. cbn.
    apply records_of_saved. exact Hf.
  - apply (synced_pairs (set_balance me (balance me + amount))).
Qed.

(** *** Opening an account *)


(** X11.  [generate_account_number] looks at the first field of the last
    line only: it returns this number plus one whatever the lines before
    hold, and raises [ValueError] when the field is no integer, in which
    case [create_account] writes nothing. *)
Theorem allocation_reads_last_line_only (w : World) (earlier : list line)
    (first : string) (fields : list string)
    (name password acc_type : string) (deposit : Z) :
  ACCOUNTS_FILE w = earlier ++ [first :: fields] ->
  generate_account_number w =
    (match py_int first with
     | Some n => Ok (n + 1)
     | None => Raise ValueError
     end, w) /\
  (py_int first = None ->
   create_account name password acc_type deposit w = (Raise ValueError, w)) /\
  (forall n, py_int first = Some n ->
     ACCOUNTS_FILE (snd (create_account name password acc_type deposit w)) =
     ACCOUNTS_FILE w ++
     [[str_int (n + 1); name; hash_password password; str_float deposit; acc_type]]).
Proof.
  intros Hfile.
  assert (Hg : generate_account_number w =
    (match py_int first with
     | Some n => Ok (n + 1)
     | None => Raise ValueError
     end, w)).
  { rewrite generate_account_number_eq, Hfile. unfold last_first_field.
    rewrite last_last. cbn [hd].
    destruct earlier; cbn [app]; destruct (py_int first); reflexivity. }
  split; [exact Hg|]. split.
  - intros Hnone. rewrite create_account_eq, Hg, Hnone. reflexivity.
  - intros n Hn. rewrite create_account_eq, Hg, Hn. reflexivity.
Qed.


(** *** After a transfer *)

Lemma find_target_synced me t accs :
  find_target t (map (synced me) accs) =
  match find_target t accs with
  | Some (i, a) => Some (i, synced me a)
  | None => None
  end.
Proof.
  induction accs as [|x rest IH]; [reflexivity|].
  cbn [map find_target]. rewrite synced_account_no.
  destruct (account_no x =? t)%string; [reflexivity|].
  rewrite IH. destruct (find_target t rest) as [[j y]|]; reflexivity.
Qed.

(** X12.  The debit a transfer leaves out of the store gets there with the
    next deposit: after a successful transfer to another account followed
    by a deposit of [d], the stored record of the sender holds the session
    balance (balance minus amount plus [d]) and the record of the target
    holds its balance plus the amount. *)
Theorem deposit_after_transfer_stores_the_debit (w : World) (me : Account)
    (accounts : list Account) (target_no : string) (i j : nat)
    (target mine : Account) (amount d : Z) :
  float_roundtrip ->
  logged_in_account w = Some me ->
  get_all_accounts w = (Ok accounts, w) ->
  find_target target_no accounts = Some (i, target) ->
  find_target (account_no me) accounts = Some (j, mine) ->
  account_no me <> target_no ->
  amount <= balance me ->
  exists w2 accounts2 mine2 target2,
    run [AtAccount (Acct4 target_no amount); AtAccount (Acct1 d)] (AccountMenu, w) =
      Some (AccountMenu, w2) /\
    logged_in_account w2 = Some (set_balance me (balance me - amount + d)) /\
    get_all_accounts w2 = (Ok accounts2, w2) /\
    find_target (account_no me) accounts2 = Some (j, mine2) /\
    find_target target_no accounts2 = Some (i, target2) /\
    balance mine2 = balance me - amount + d /\
    balance target2 = balance target + amount.
Proof.
  intros Hf Hme Hs Hfind Hmine Hne Hle.
  rewrite get_all_accounts_eq in Hs. injection Hs as Hs.
  pose proof (find_target_account_no _ _ _ _ Hfind) as Htno.
  pose proof (find_target_account_no _ _ _ _ Hmine) as Hmno.
  set (me1 := set_balance me (balance me - amount)).
  set (target1 := set_balance target (balance target + amount)).
  set (accounts1 := mutated_at i target1 accounts).
  set (me2 := set_balance me1 (balance me1 + d)).
  assert (Hmine1 : find_target (account_no me) accounts1 = Some (j, mine)).
  { subst accounts1.
    rewrite (find_target_mutated_other (account_no me) target_no accounts i target);
      [exact Hmine|exact Hfind|exact Htno|exact Hne]. }
  assert (Htarget1 : find_target target_no accounts1 = Some (i, target1)).
  { subst accounts1. apply find_target_mutated_same with (a := target);
      [exact Hfind|exact Htno]. }
  set (w1 := with_message TransferSuccessful
                (with_accounts (map save_line accounts1)
                   (with_session (Some me1)
                      (with_logged
                         [txn_row (account_no me) "Transfer" amount (Some target_no);
                          txn_row target_no "Received" amount (Some (account_no me))]
                         w)))).
  assert (Hs1 : stored w1 = Ok accounts1).
  { rewrite stored_records. cbn. apply records_of_saved. exact Hf. }
  destruct (deposit_turn w1 me1 accounts1 d Hf eq_refl Hs1)
    as (w2 & Ht2 & _ & Hl2 & Hs2).
  exists w2, (map (synced me2) accounts1), (synced me2 mine), (synced me2 target1).
  split; [|split; [|split; [|split; [|split; [|split]]]]].
  - assert (Ht1 : turn (AtAccount (Acct4 target_no amount)) (AccountMenu, w) =
                  Some (AccountMenu, w1)).
    { cbn [turn fst snd]. unfold account_menu. rewrite bind_eq.
      rewrite (transfer_succeeds _ _ w me accounts i target Hme Hs Hfind Hle).
      reflexivity. }
    cbn [run]. rewrite Ht1, Ht2. reflexivity.
  - rewrite Hl2. reflexivity.
  - rewrite get_all_accounts_eq, Hs2. reflexivity.
  - rewrite find_target_synced, Hmine1. reflexivity.
  - rewrite find_target_synced, Htarget1. reflexivity.
  - unfold synced. rewrite Hmno. cbn [account_no me2 me1 set_balance].
    rewrite String.eqb_refl. cbn. lia.
  - unfold synced. cbn [account_no target1 me2 me1 set_balance]. rewrite Htno.
    destruct (target_no =? account_no me)%string eqn:E.
    + apply String.eqb_eq in E. congruence.
    + reflexivity.
Qed.


Lemma mutated_account_nos t accs i a x :
  find_target t accs = Some (i, a) -> account_no x = account_no a ->
  map account_no (mutated_at i x accs) = map account_no accs.
Proof.
  intros Hfind Hx. revert i Hfind.
  induction accs as [|y rest IH]; intros i Hfind; [discriminate|].
  cbn [find_target] in Hfind.
  destruct (account_no y =? t)%string.
  - injection Hfind as <- <-. cbn [mutated_at map]. rewrite Hx. reflexivity.
  - destruct (find_target t rest) as [[k z]|]; [|discriminate].
    injection Hfind as <- <-. cbn [mutated_at map]. rewrite (IH k); reflexivity.
Qed.

(** X13.  Logging out and in again after a transfer brings back the
    balance the store held before it: the object logged in is the
    sender's record as it was stored before the transfer, while the
    target's record keeps the amount. *)
Theorem login_after_transfer_loads_old_balance (w : World) (me : Account)
    (accounts : list Account) (target_no secret : string) (i j : nat)
    (target mine : Account) (amount : Z) :
  float_roundtrip ->
  logged_in_account w = Some me ->
  get_all_accounts w = (Ok accounts, w) ->
  NoDup (map account_no accounts) ->
  find_target target_no accounts = Some (i, target) ->
  find_target (account_no me) accounts = Some (j, mine) ->
  password mine = hash_password secret ->
  account_no me <> target_no ->
  amount <= balance me ->
  exists w3 accounts3 target3,
    run [AtAccount (Acct4 target_no amount); AtAccount Acct7;
         AtMain (Main2 (account_no me) secret)] (AccountMenu, w) =
      Some (AccountMenu, w3) /\
    logged_in_account w3 = Some mine /\
    get_all_accounts w3 = (Ok accounts3, w3) /\
    find_target (account_no me) accounts3 = Some (j, mine) /\
    find_target target_no accounts3 = Some (i, target3) /\
    balance target3 = balance target + amount.
Proof.
  intros Hf Hme Hs Hnd Hfind Hmine Hpw Hne Hle.
  rewrite get_all_accounts_eq in Hs. injection Hs as Hs.
  pose proof (find_target_account_no _ _ _ _ Hfind) as Htno.
  pose proof (find_target_account_no _ _ _ _ Hmine) as Hmno.
  set (me1 := set_balance me (balance me - amount)).
  set (target1 := set_balance target (balance target + amount)).
  set (accounts1 := mutated_at i target1 accounts).
  assert (Hmine1 : find_target (account_no me) accounts1 = Some (j, mine)).
  { subst accounts1.
    rewrite (find_target_mutated_other (account_no me) target_no accounts i target);
      [exact Hmine|exact Hfind|exact Htno|exact Hne]. }
  assert (Htarget1 : find_target target_no accounts1 = Some (i, target1)).
  { subst accounts1. apply find_target_mutated_same with (a := target);
      [exact Hfind|exact Htno]. }
  set (w1 := with_message TransferSuccessful
                (with_accounts (map save_line accounts1)
                   (with_session (Some me1)
                      (with_logged
                         [txn_row (account_no me) "Transfer" amount (Some target_no);
                          txn_row target_no "Received" amount (Some (account_no me))]
                         w)))).
  set (w2 := with_message LoggedOut w1).
  assert (Ht1 : turn (AtAccount (Acct4 target_no amount)) (AccountMenu, w) =
                Some (AccountMenu, w1)).
  { cbn [turn fst snd]. unfold account_menu. rewrite bind_eq.
    rewrite (transfer_succeeds _ _ w me accounts i target Hme Hs Hfind Hle).
    reflexivity. }
  assert (Ht2 : turn (AtAccount Acct7) (AccountMenu, w1) = Some (MainMenu, w2)).
  { reflexivity. }
  assert (Hlogin : login (account_no me) secret w2 =
    (Ok true, with_message (Welcome (name mine)) (with_session (Some mine) w2))).
  { rewrite login_eq.
    replace (Some mine) with
      (Some (mkAccount (account_no me) (name mine) (hash_password secret)
                       (balance mine) (acc_type mine)))
      by (rewrite <- Hpw, <- Hmno; destruct mine; reflexivity).
    apply login_scan_match with (b := str_float (balance mine)).
    - cbn. apply saved_five_fields.
    - cbn. rewrite saved_account_nos. subst accounts1.
      rewrite (mutated_account_nos target_no accounts i target target1 Hfind eq_refl).
      exact Hnd.
    - cbn. rewrite <- Hpw, <- Hmno.
      change [account_no mine; name mine; password mine;
              str_float (balance mine); acc_type mine] with (save_line mine).
      apply in_map. apply (find_target_In _ _ _ _ Hmine1).
    - apply Hf. }
  assert (Ht3 : turn (AtMain (Main2 (account_no me) secret)) (MainMenu, w2) =
                Some (AccountMenu,
                      with_message (Welcome (name mine))
                        (with_session (Some mine) w2))).
  { cbn [turn fst snd]. unfold main_menu. rewrite bind_eq, Hlogin. reflexivity. }
  eexists. exists accounts1, target1.
  split; [cbn [run]; rewrite Ht1, Ht2, Ht3; reflexivity|].
  split; [reflexivity|]. split; [|split; [exact Hmine1|split; [exact Htarget1|reflexivity]]].
  rewrite get_all_accounts_eq. f_equal. rewrite stored_records. cbn.
  apply records_of_saved. exact Hf.
Qed.

(** *** The logged-in account and its record *)






(** *** The log and the successes reported *)







(** *** The object left by a logout *)

Lemma login_scan_session a h ls s w :
  login_scan a h ls (with_session s w) =
  match login_scan a h ls w with
  | (Ok true, w') => (Ok true, w')
  | (r, w') => (r, with_session s w')
  end.
Proof.
  induction ls as [|l rest IH].
  - reflexivity.
  - destruct l as [|f1 [|f2 [|f3 [|f4 [|f5 [|]]]]]]; try reflexivity.
    cbn [login_scan].
    destruct ((f1 =? a)%string && (f3 =? h)%string)%bool; [|exact IH].
    rewrite !bind_eq. unfold Account_init.
    destruct (py_float f4); reflexivity.
Qed.

(** X16.  Choice 7 leaves the object in [logged_in_account], and no turn of
    the main menu depends on it: the result, both files and the messages
    are the same whatever object is left there, and after a successful
    login the object is the one just loaded. *)
Theorem logout_keeps_the_object_unused (w : World) (me : Account)
    (c : main_choice) (s : option Account) :
  logged_in_account w = Some me ->
  account_menu Acct7 w = (Ok MainMenu, with_message LoggedOut w) /\
  logged_in_account (snd (account_menu Acct7 w)) = Some me /\
  fst (main_menu c (with_session s w)) = fst (main_menu c w) /\
  ACCOUNTS_FILE (snd (main_menu c (with_session s w))) =
    ACCOUNTS_FILE (snd (main_menu c w)) /\
  TRANSACTIONS_FILE (snd (main_menu c (with_session s w))) =
    TRANSACTIONS_FILE (snd (main_menu c w)) /\
  printed (snd (main_menu c (with_session s w))) = printed (snd (main_menu c w)) /\
  (fst (main_menu c w) = Ok AccountMenu ->
   logged_in_account (snd (main_menu c (with_session s w))) =
   logged_in_account (snd (main_menu c w))).
Proof.
  intros Hme. split; [reflexivity|]. split; [exact Hme|].
  destruct c as [nm pw ty dep|a p| |]; unfold main_menu; rewrite !bind_eq.
  - rewrite !create_account_eq, !generate_account_number_eq.
    cbn [fst ACCOUNTS_FILE with_session].
    destruct (ACCOUNTS_FILE w) as [|l ls]; [cbn; repeat split; intros [=]|].
    destruct (py_int (last_first_field (l :: ls))); cbn; repeat split; intros [=].
  - rewrite !login_eq. cbn [ACCOUNTS_FILE with_session].
    rewrite login_scan_session.
    destruct (login_scan a (hash_password p) (ACCOUNTS_FILE w) w) as [[[|]|e] w1];
      cbn; repeat split; intros [=].
  - cbn. repeat split. intros [=].
  - cbn. repeat split. intros [=].
Qed.

End Facts.

(** ** Concrete runs *)

Lemma demo_roundtrip (z : Z) : demo_number (demo_text z) = Some z.
Proof.
  unfold demo_number, demo_text. rewrite NilZero.isi.
  - cbn [option_map]. rewrite DecimalZ.of_to. reflexivity.
  - destruct z as [|p|p]; cbn; try discriminate.
    intros [= Hp]. apply (DecimalPos.Unsigned.to_uint_nonnil p Hp).
  - destruct z as [|p|p]; cbn; try discriminate.
    intros [= Hp]. apply (DecimalPos.Unsigned.to_uint_nonnil p Hp).
Qed.

Lemma demo_float_roundtrip : @float_roundtrip demo.
Proof. exact demo_roundtrip. Qed.


Lemma demo_digest_injective : @digest_injective demo.
Proof. intros p q Hpq. injection Hpq as Hpq. exact Hpq. Qed.



Lemma two_accounts_read :
  @get_all_accounts demo two_accounts = (Ok [asha; ben], two_accounts).
Proof. vm_compute. reflexivity. Qed.


(** The scenario of the specification, continued from [two_accounts]: a
    transfer of 50 to the second account.  The session shows 50, the store
    still holds 100 for the sender and now 50 for the receiver. *)
Lemma transfer_scenario :
  @run demo [AtAccount (Acct4 "100002" 50)] (AccountMenu, two_accounts) =
  Some (AccountMenu,
        mkWorld [["100001"; "asha"; "#pw"; "100"; "Savings"];
                 ["100002"; "ben"; "#qq"; "50"; "Current"]]
                [mkTxn "100001" "Transfer to 100002" 50;
                 mkTxn "100002" "Received to 100001" 50]
                (Some (set_balance asha 50))
                (printed two_accounts ++ [TransferSuccessful])).
Proof. vm_compute. reflexivity. Qed.

(** C1 at [two_accounts]: a transfer of 50 to the second account. *)
Lemma transfer_store_sum_witness :
  @float_roundtrip demo /\
  50 <= balance asha /\
  exists w' accounts' mine' target',
    @transfer demo "100002" 50 two_accounts = (Ok tt, w') /\
    @get_all_accounts demo w' = (Ok accounts', w') /\
    find_target "100001" accounts' = Some (0%nat, mine') /\
    find_target "100002" accounts' = Some (1%nat, target') /\
    balance mine' + balance target' = balance asha + balance ben + 50.
Proof.
  split; [exact demo_float_roundtrip|]. split; [cbn; lia|].
  destruct (@transfer_store_sum demo two_accounts asha [asha; ben] "100002"
              1%nat 0%nat ben asha 50 demo_float_roundtrip eq_refl
              two_accounts_read eq_refl eq_refl)
    as (Ht & _ & accounts' & mine' & target' & Hs & Hm & Htg & _ & _ & Hsum).
  - discriminate.
  - cbn. lia.
  - exists (snd (@transfer demo "100002" 50 two_accounts)), accounts', mine', target'.
    repeat split; assumption.
Defined.








(** C7 at [two_accounts]. *)
Lemma write_back_read_again_witness :
  @float_roundtrip demo /\
  @get_all_accounts demo two_accounts = (Ok [asha; ben], two_accounts) /\
  @get_all_accounts demo (snd (@save_accounts demo [asha; ben] two_accounts)) =
    (Ok [asha; ben], snd (@save_accounts demo [asha; ben] two_accounts)).
Proof.
  split; [exact demo_float_roundtrip|]. split; [exact two_accounts_read|].
  apply (@write_back_read_again demo two_accounts [asha; ben]
           demo_float_roundtrip two_accounts_read).
Defined.



(** C10 at [two_accounts]: the first account transfers 40 to itself. *)
Lemma self_transfer_witness :
  @float_roundtrip demo /\
  40 <= balance asha /\
  exists accounts',
    @get_all_accounts demo (snd (@transfer demo "100001" 40 two_accounts)) =
      (Ok accounts', snd (@transfer demo "100001" 40 two_accounts)) /\
    find_target "100001" accounts' = Some (0%nat, set_balance asha 140) /\
    logged_in_account (snd (@transfer demo "100001" 40 two_accounts)) =
      Some (set_balance asha 60).
Proof.
  split; [exact demo_float_roundtrip|]. split; [cbn; lia|].
  destruct (@self_transfer demo two_accounts asha [asha; ben] 0%nat asha 40
              demo_float_roundtrip eq_refl two_accounts_read eq_refl)
    as (_ & _ & _ & Hl & accounts' & Hs & Hf & _).
  - cbn. lia.
  - exists accounts'. split; [exact Hs|]. split; [exact Hf|exact Hl].
Defined.

(** ** The further properties at concrete worlds *)

Lemma two_accounts_distinct : NoDup (map account_no [asha; ben]).
Proof.
  constructor; [|constructor; [|constructor]].
  - intros [Heq|[]]. discriminate.
  - intros [].
Qed.

(** X1 at [two_accounts]: the first account changes its password. *)
Lemma change_password_then_login_witness :
  @digest_injective demo /\
  @float_roundtrip demo /\
  @hash_password demo "pw" = password asha /\
  fst (@login demo "100001" "new"
         (snd (@change_password demo "pw" "new" two_accounts))) = Ok true /\
  fst (@login demo "100001" "pw"
         (snd (@change_password demo "pw" "new" two_accounts))) <> Ok true.
Proof.
  split; [exact demo_digest_injective|]. split; [exact demo_float_roundtrip|].
  split; [reflexivity|].
  destruct (@change_password_then_login demo two_accounts asha [asha; ben] "pw" "new"
              demo_digest_injective demo_float_roundtrip eq_refl two_accounts_read
              two_accounts_distinct (or_introl eq_refl) eq_refl)
    as (_ & _ & _ & _ & _ & Hlogin).
  split.
  - apply Hlogin. reflexivity.
  - intros Hold. apply Hlogin in Hold. discriminate.
Defined.

(** X2 at [two_accounts]: the first account is closed. *)
Lemma close_account_removes_record_witness :
  @float_roundtrip demo /\
  logged_in_account two_accounts = Some asha /\
  @get_all_accounts demo (snd (@account_menu demo (Acct6 true) two_accounts)) =
    (Ok [ben], snd (@account_menu demo (Acct6 true) two_accounts)).
Proof.
  split; [exact demo_float_roundtrip|]. split; [reflexivity|].
  apply (@close_account_removes_record demo two_accounts asha [asha; ben]
           demo_float_roundtrip eq_refl two_accounts_read).
Defined.

(** X3 at [two_accounts]: a deposit and a transfer. *)
Lemma transaction_log_only_grows_witness :
  exists cfg' rows,
    @run demo [AtAccount (Acct1 50); AtAccount (Acct4 "100002" 20)]
      (AccountMenu, two_accounts) = Some cfg' /\
    TRANSACTIONS_FILE (snd cfg') = TRANSACTIONS_FILE two_accounts ++ rows /\
    (List.length rows <= 4)%nat.
Proof.
  destruct (@run demo [AtAccount (Acct1 50); AtAccount (Acct4 "100002" 20)]
              (AccountMenu, two_accounts)) as [cfg'|] eqn:Hrun;
    [|vm_compute in Hrun; discriminate].
  destruct (@transaction_log_only_grows demo _ _ _ Hrun) as (rows & Hrows & Hlen).
  exists cfg', rows. split; [reflexivity|]. split; [exact Hrows|exact Hlen].
Defined.


(** X5 at [two_accounts]: the login of the second account. *)
Lemma account_menu_entered_by_login_witness :
  exists w' a p n b t x,
    @turn demo (AtMain (Main2 "100002" "qq")) (MainMenu, two_accounts) =
      Some (AccountMenu, w') /\
    AtMain (Main2 "100002" "qq") = AtMain (Main2 a p) /\
    In [a; n; @hash_password demo p; b; t] (ACCOUNTS_FILE two_accounts) /\
    @py_float demo b = Some x.
Proof.
  assert (Ht : @turn demo (AtMain (Main2 "100002" "qq")) (MainMenu, two_accounts) =
               Some (AccountMenu,
                     snd (@main_menu demo (Main2 "100002" "qq") two_accounts))).
  { vm_compute. reflexivity. }
  destruct (@account_menu_entered_by_login demo _ _ _ Ht)
    as (a & p & n & b & t & x & Hc & Hin & Hx & _).
  exists (snd (@main_menu demo (Main2 "100002" "qq") two_accounts)), a, p, n, b, t, x.
  repeat split; assumption.
Defined.

(** X6 at [with_blank_line]: two accounts are read from three lines. *)
Lemma read_succeeds_iff_lines_readable_witness :
  Forall (@readable demo) (ACCOUNTS_FILE with_blank_line) /\
  exists accounts,
    fst (@get_all_accounts demo with_blank_line) = Ok accounts /\
    List.length accounts = 2%nat.
Proof.
  assert (Hread : exists accounts,
            fst (@get_all_accounts demo with_blank_line) = Ok accounts).
  { eexists. vm_compute. reflexivity. }
  destruct (@read_succeeds_iff_lines_readable demo with_blank_line)
    as (_ & Hiff & Hlen & _).
  split; [apply Hiff; exact Hread|].
  destruct Hread as [accounts Hr]. exists accounts. split; [exact Hr|].
  rewrite (Hlen accounts Hr). reflexivity.
Defined.

(** X7 at [with_bad_tail]: the second account logs in. *)
Lemma login_stops_at_first_match_witness :
  ACCOUNTS_FILE with_bad_tail =
    [["100001"; "asha"; "#pw"; "100"; "Savings"]] ++
    ["100002"; "ben"; @hash_password demo "qq"; "0"; "Current"] :: [["garbage"]] /\
  fst (@login demo "100002" "qq" with_bad_tail) = Ok true.
Proof.
  split; [reflexivity|].
  rewrite (@login_stops_at_first_match demo with_bad_tail
             [["100001"; "asha"; "#pw"; "100"; "Savings"]] [["garbage"]]
             "100002" "ben" "qq" "0" "Current" 0 eq_refl).
  - reflexivity.
  - repeat constructor.
  - intros n' b' t' [Heq|[]]. discriminate.
  - reflexivity.
Defined.

(** X8 at [with_blank_line]: the second account cannot log in. *)
Lemma login_raises_on_malformed_line_witness :
  ACCOUNTS_FILE with_blank_line =
    [["100001"; "asha"; "#pw"; "100"; "Savings"]] ++
    [""] :: [["100002"; "ben"; "#qq"; "0"; "Current"]] /\
  ~ five_fields [""] /\
  @login demo "100002" "qq" with_blank_line = (Raise ValueError, with_blank_line).
Proof.
  split; [reflexivity|]. split; [intros []|].
  apply (@login_raises_on_malformed_line demo with_blank_line
           [["100001"; "asha"; "#pw"; "100"; "Savings"]]
           [["100002"; "ben"; "#qq"; "0"; "Current"]] [""] "100002" "qq" eq_refl).
  - repeat constructor.
  - intros n b t [Heq|[]]. discriminate.
  - intros [].
Defined.

(** X9 at [two_accounts]: a deposit of 50. *)
Lemma deposit_changes_own_balance_only_witness :
  @float_roundtrip demo /\
  logged_in_account two_accounts = Some asha /\
  @get_all_accounts demo two_accounts = (Ok [asha; ben], two_accounts) /\
  logged_in_account (snd (@deposit demo 50 two_accounts)) =
    Some (set_balance asha 150).
Proof.
  split; [exact demo_float_roundtrip|]. split; [reflexivity|].
  split; [exact two_accounts_read|].
  apply (@deposit_changes_own_balance_only demo two_accounts asha [asha; ben] 50
           demo_float_roundtrip eq_refl two_accounts_read).
Defined.


(** X11 at [two_accounts]: the last line holds 100002. *)
Lemma allocation_reads_last_line_only_witness :
  ACCOUNTS_FILE two_accounts =
    [["100001"; "asha"; "#pw"; "100"; "Savings"]] ++
    [["100002"; "ben"; "#qq"; "0"; "Current"]] /\
  @generate_account_number demo two_accounts = (Ok 100003, two_accounts).
Proof.
  split; [reflexivity|].
  apply (@allocation_reads_last_line_only demo two_accounts
           [["100001"; "asha"; "#pw"; "100"; "Savings"]] "100002"
           ["ben"; "#qq"; "0"; "Current"] "carl" "zz" "Savings" 7 eq_refl).
Defined.

(** X12 at [two_accounts]: a transfer of 50, then a deposit of 0. *)
Lemma deposit_after_transfer_stores_the_debit_witness :
  @float_roundtrip demo /\
  50 <= balance asha /\
  exists w2 accounts2 mine2 target2,
    @run demo [AtAccount (Acct4 "100002" 50); AtAccount (Acct1 0)]
      (AccountMenu, two_accounts) = Some (AccountMenu, w2) /\
    @get_all_accounts demo w2 = (Ok accounts2, w2) /\
    find_target "100001" accounts2 = Some (0%nat, mine2) /\
    find_target "100002" accounts2 = Some (1%nat, target2) /\
    balance mine2 = 50 /\
    balance target2 = 50.
Proof.
  split; [exact demo_float_roundtrip|]. split; [cbn; lia|].
  destruct (@deposit_after_transfer_stores_the_debit demo two_accounts asha
              [asha; ben] "100002" 1%nat 0%nat ben asha 50 0 demo_float_roundtrip
              eq_refl two_accounts_read eq_refl eq_refl)
    as (w2 & accounts2 & mine2 & target2 & Hr & _ & Hs & Hm & Ht & Hbm & Hbt).
  - discriminate.
  - cbn. lia.
  - exists w2, accounts2, mine2, target2. repeat split; assumption.
Defined.

(** X13 at [two_accounts]: a transfer of 50, logout, login. *)
Lemma login_after_transfer_loads_old_balance_witness :
  @float_roundtrip demo /\
  password asha = @hash_password demo "pw" /\
  50 <= balance asha /\
  exists w3,
    @run demo [AtAccount (Acct4 "100002" 50); AtAccount Acct7;
               AtMain (Main2 "100001" "pw")] (AccountMenu, two_accounts) =
      Some (AccountMenu, w3) /\
    logged_in_account w3 = Some asha.
Proof.
  split; [exact demo_float_roundtrip|]. split; [reflexivity|]. split; [cbn; lia|].
  destruct (@login_after_transfer_loads_old_balance demo two_accounts asha
              [asha; ben] "100002" "pw" 1%nat 0%nat ben asha 50 demo_float_roundtrip
              eq_refl two_accounts_read two_accounts_distinct eq_refl eq_refl eq_refl)
    as (w3 & _ & _ & Hr & Hl & _).
  - discriminate.
  - cbn. lia.
  - exists w3. split; assumption.
Defined.



(** X16 at [two_accounts]: logout, then a login of the second account. *)
Lemma logout_keeps_the_object_unused_witness :
  logged_in_account two_accounts = Some asha /\
  logged_in_account (snd (@account_menu demo Acct7 two_accounts)) = Some asha /\
  fst (@main_menu demo (Main2 "100002" "qq") (with_session None two_accounts)) =
    fst (@main_menu demo (Main2 "100002" "qq") two_accounts).
Proof.
  split; [reflexivity|].
  destruct (@logout_keeps_the_object_unused demo two_accounts asha
              (Main2 "100002" "qq") None eq_refl) as (_ & Hkept & Hsame & _).
  split; [exact Hkept|exact Hsame].
Defined.
